(** * TGE day-ahead market scraper: a model of [tge_scraper.py]

    The development follows the source file top to bottom: the Python values
    the script manipulates (insertion-ordered [dict]s, the queried part of the
    BeautifulSoup tree, a pandas [DataFrame] of strings), the civil-time
    computation of [get_polish_date], the pure row extraction and filtering of
    [scrape_tge_data], and finally its retry loop, run in a small monad that
    threads the network, the session and a trace of the observable actions and
    carries Python exceptions. *)

From Stdlib Require Import ZArith List String Ascii Bool Lia Arith.
From Stdlib Require Import DecimalString DecimalNat.
Import ListNotations.

Local Open Scope string_scope.
Local Open Scope list_scope.

(** ** Python values *)

Module Py.

(** A [dict] with string keys: insertion ordered, a later write to an
    existing key replaces the value and keeps the key where it was. *)
Definition dict (V : Type) : Type := list (string * V).

Fixpoint dict_set {V} (d : dict V) (k : string) (v : V) : dict V :=
  match d with
  | [] => [(k, v)]
  | (k', v') :: rest =>
      if String.eqb k' k then (k', v) :: rest
      else (k', v') :: dict_set rest k v
  end.

Fixpoint dict_get {V} (d : dict V) (k : string) : option V :=
  match d with
  | [] => None
  | (k', v') :: rest => if String.eqb k' k then Some v' else dict_get rest k
  end.

Definition keys {V} (d : dict V) : list string := map fst d.

(** Truthiness of [None]-or-string, and the value of [a or b] on them. *)
Definition truthy (o : option string) : bool :=
  match o with
  | Some s => negb (String.eqb s "")
  | None => false
  end.

Definition or_ (a b : option string) : option string :=
  if truthy a then a else b.

(** [range(n)] for an [int] [n]: empty when [n <= 0]. *)
Definition range (n : Z) : list Z := map Z.of_nat (seq 0 (Z.to_nat n)).

(** [str(n)] for a non-negative [int]. *)
Definition str_of_nat (n : nat) : string :=
  NilEmpty.string_of_uint (Nat.to_uint n).

(** [enumerate(l)] *)
Fixpoint enumerate_from {A} (i : nat) (l : list A) : list (nat * A) :=
  match l with
  | [] => []
  | x :: rest => (i, x) :: enumerate_from (S i) rest
  end.

Definition enumerate {A} (l : list A) : list (nat * A) := enumerate_from 0 l.

End Py.

(** ** Exceptions

    Every exception the script can meet derives from [Exception];
    [requests.exceptions.RequestException] is the class the retry loop
    singles out (connection errors, timeouts and the [HTTPError] of
    [raise_for_status] all derive from it). *)

Inductive Exn : Type :=
| RequestException
| ImportError
| ValueError
| OverflowError
| KeyError
| OtherException.

Definition is_RequestException (e : Exn) : bool :=
  match e with
  | RequestException => true
  | _ => false
  end.

(** The result of evaluating an expression: a value, or a raised exception. *)
Inductive Outcome (A : Type) : Type :=
| Ret (a : A)
| Raise (e : Exn).

Arguments Ret {A} a.
Arguments Raise {A} e.

Definition obind {A B} (o : Outcome A) (k : A -> Outcome B) : Outcome B :=
  match o with
  | Ret a => k a
  | Raise e => Raise e
  end.

(** ** Civil time: [datetime], [calendar] and [strftime]

    The naive [datetime] of the standard library, with the operations
    [get_polish_date] uses.  Years run from [MINYEAR] to [MAXYEAR]; building
    a date outside the calendar raises [ValueError], arithmetic that leaves
    the range raises [OverflowError]. *)

Module Datetime.

Local Open Scope Z_scope.

Record datetime : Type := mkDatetime
  { year : Z; month : Z; day : Z;
    hour : Z; minute : Z; second : Z; microsecond : Z }.

Definition MINYEAR : Z := 1.
Definition MAXYEAR : Z := 9999.

Definition isleap (y : Z) : bool :=
  (y mod 4 =? 0) && (negb (y mod 100 =? 0) || (y mod 400 =? 0)).

Definition days_in_month (y m : Z) : Z :=
  if m =? 2 then (if isleap y then 29 else 28)
  else if (m =? 4) || (m =? 6) || (m =? 9) || (m =? 11) then 30
  else 31.

Definition valid_date (y m d : Z) : bool :=
  (MINYEAR <=? y) && (y <=? MAXYEAR) && (1 <=? m) && (m <=? 12)
  && (1 <=? d) && (d <=? days_in_month y m).

Definition valid_time (h mi s us : Z) : bool :=
  (0 <=? h) && (h <? 24) && (0 <=? mi) && (mi <? 60)
  && (0 <=? s) && (s <? 60) && (0 <=? us) && (us <? 1000000).

(** The invariant of every [datetime] object. *)
Definition valid (t : datetime) : bool :=
  valid_date (year t) (month t) (day t)
  && valid_time (hour t) (minute t) (second t) (microsecond t).

(** [datetime(y, m, d, h, mi, s)] *)
Definition make (y m d h mi s : Z) : Outcome datetime :=
  if valid_date y m d && valid_time h mi s 0
  then Ret (mkDatetime y m d h mi s 0)
  else Raise ValueError.

(** Ordering of naive datetimes: lexicographic on the fields. *)
Definition fields (t : datetime) : list Z :=
  [year t; month t; day t; hour t; minute t; second t; microsecond t].

Fixpoint lex_compare (a b : list Z) : comparison :=
  match a, b with
  | x :: a', y :: b' =>
      match x ?= y with
      | Eq => lex_compare a' b'
      | c => c
      end
  | [], [] => Eq
  | [], _ :: _ => Lt
  | _ :: _, [] => Gt
  end.

Definition leb (a b : datetime) : bool :=
  match lex_compare (fields a) (fields b) with
  | Gt => false
  | _ => true
  end.

Definition ltb (a b : datetime) : bool :=
  match lex_compare (fields a) (fields b) with
  | Lt => true
  | _ => false
  end.

(** The day after a date. *)
Definition next_day (date : Z * Z * Z) : Z * Z * Z :=
  let '(y, m, d) := date in
  if d <? days_in_month y m then (y, m, d + 1)
  else if m <? 12 then (y, m + 1, 1)
  else (y + 1, 1, 1).

(** [t + timedelta(hours=h)] for [h >= 0]. *)
Definition add_hours (t : datetime) (h : Z) : Outcome datetime :=
  let total := hour t + h in
  let '(y, m, d) :=
    Nat.iter (Z.to_nat (total / 24)) next_day (year t, month t, day t) in
  if y >? MAXYEAR then Raise OverflowError
  else Ret (mkDatetime y m d (total mod 24) (minute t) (second t)
              (microsecond t)).

(** Proleptic Gregorian ordinal and day of the week (Monday is 0). *)
Definition days_before_year (y : Z) : Z :=
  let p := y - 1 in p * 365 + p / 4 - p / 100 + p / 400.

Definition days_before_month (y m : Z) : Z :=
  fold_right Z.add 0
    (map (fun k => days_in_month y (Z.of_nat k)) (seq 1 (Z.to_nat (m - 1)))).

Definition toordinal (y m d : Z) : Z :=
  days_before_year y + days_before_month y m + d.

Definition weekday (y m d : Z) : Z := (toordinal y m d + 6) mod 7.

(** [calendar.monthrange(y, m)] *)
Definition monthrange (y m : Z) : Z * Z := (weekday y m 1, days_in_month y m).

(** [calendar.Calendar(0).itermonthdays(y, m)]: the days of the month,
    padded with zeros to whole weeks that start on Monday. *)
Definition itermonthdays (y m : Z) : list Z :=
  let '(day1, ndays) := monthrange y m in
  let days_before := (day1 - 0) mod 7 in
  let days_after := (0 - day1 - ndays) mod 7 in
  repeat 0 (Z.to_nat days_before)
  ++ map Z.of_nat (seq 1 (Z.to_nat ndays))
  ++ repeat 0 (Z.to_nat days_after).

Fixpoint weeks_of (fuel : nat) (days : list Z) : list (list Z) :=
  match fuel, days with
  | S fuel', _ :: _ => firstn 7 days :: weeks_of fuel' (skipn 7 days)
  | _, _ => []
  end.

(** [calendar.monthcalendar(y, m)] *)
Definition monthcalendar (y m : Z) : list (list Z) :=
  let days := itermonthdays y m in
  weeks_of (List.length days) days.

(** [max(...)] of integers: [ValueError] on an empty sequence. *)
Definition max_of (l : list Z) : Outcome Z :=
  match l with
  | [] => Raise ValueError
  | x :: rest => Ret (fold_left Z.max rest x)
  end.

(** [max(week[-1] for week in calendar.monthcalendar(y, m))] *)
Definition last_sunday (y m : Z) : Outcome Z :=
  max_of (map (fun week => last week 0) (monthcalendar y m)).

(** [strftime]: day, month, hour, minute and second on two digits. *)
Definition digit (n : Z) : ascii := ascii_of_nat (48 + Z.to_nat n).

Definition pad2 (n : Z) : string :=
  String (digit (n / 10)) (String (digit (n mod 10)) EmptyString).

Definition pad4 (n : Z) : string :=
  String (digit (n / 1000))
    (String (digit ((n / 100) mod 10))
       (String (digit ((n / 10) mod 10))
          (String (digit (n mod 10)) EmptyString))).

(** [%Y], the year as a decimal number: padded with zeros to four digits or
    not, as the platform has it (the C library decides, CPython pads by
    itself from 3.13 on).  From the year 1000 on both give the same. *)
Definition format_year (padded : bool) (y : Z) : string :=
  if padded then pad4 y else Py.str_of_nat (Z.to_nat y).

Definition strftime_dmY (padded : bool) (t : datetime) : string :=
  (pad2 (day t) ++ "-" ++ pad2 (month t) ++ "-"
   ++ format_year padded (year t))%string.

(** What it is for a string to be a date in the form DD-MM-YYYY. *)
Definition is_digit (c : ascii) : bool :=
  (48 <=? nat_of_ascii c)%nat && (nat_of_ascii c <=? 57)%nat.

Definition digit_val (c : ascii) : Z := Z.of_nat (nat_of_ascii c - 48).

Definition is_dd_mm_yyyy (s : string) : bool :=
  match list_ascii_of_string s with
  | [d1; d2; s1; m1; m2; s2; y1; y2; y3; y4] =>
      forallb is_digit [d1; d2; m1; m2; y1; y2; y3; y4]
      && Ascii.eqb s1 "-" && Ascii.eqb s2 "-"
      && valid_date
           (1000 * digit_val y1 + 100 * digit_val y2 + 10 * digit_val y3
            + digit_val y4)
           (10 * digit_val m1 + digit_val m2)
           (10 * digit_val d1 + digit_val d2)
  | _ => false
  end.

End Datetime.

(** ** [get_polish_date]

    What the function finds around it: what [datetime.now(ZoneInfo(...))]
    and [datetime.now(pytz.timezone(...))] give, each including its import
    (so an absent library is [Raise ImportError]), and the UTC clock. *)

Record DateEnv : Type := mkDateEnv
  { pads_year : bool;   (* [strftime] pads a year below 1000 with zeros *)
    zoneinfo_now : Outcome Datetime.datetime;
    pytz_now : Outcome Datetime.datetime;
    utcnow : Datetime.datetime }.

(** Lines 22-37: the computation without a time-zone library. *)
Definition manual_polish_time (utc_now : Datetime.datetime)
  : Outcome Datetime.datetime :=
  let year := Datetime.year utc_now in
  obind (Datetime.last_sunday year 3) (fun last_sunday_march =>
  obind (Datetime.last_sunday year 10) (fun last_sunday_october =>
  obind (Datetime.make year 3 last_sunday_march 1 0 0) (fun dst_start_utc =>
  obind (Datetime.make year 10 last_sunday_october 1 0 0) (fun dst_end_utc =>
  let polish_offset :=
    if Datetime.leb dst_start_utc utc_now && Datetime.ltb utc_now dst_end_utc
    then 2%Z else 1%Z in
  Datetime.add_hours utc_now polish_offset)))).

Definition get_polish_date (env : DateEnv) : Outcome string :=
  obind
    match zoneinfo_now env with
    | Ret polish_time => Ret polish_time
    | Raise _ =>
        match pytz_now env with
        | Ret polish_time => Ret polish_time
        | Raise ImportError => manual_polish_time (utcnow env)
        | Raise e => Raise e
        end
    end
    (fun polish_time =>
       Ret (Datetime.strftime_dmY (pads_year env) polish_time)).

(** ** The part of the BeautifulSoup tree the scraper queries

    [soup.find('table', {'id': 'rdn'})], [table.find('tbody')],
    [tbody.find_all('tr')] and [tr.find_all('td')] are library queries; the
    model records what they answer.  A tag is always truthy, so [if not table]
    and [if tbody] test for [None]; [if cells] tests a list for emptiness. *)

Module Soup.

Record Tag : Type := mkTag
  { attrs : Py.dict string;      (* the attributes of the element *)
    get_text_strip : string }.   (* [get_text(strip=True)] *)

(** [tag.get(name)]: the attribute or [None]. *)
Definition get (t : Tag) (name : string) : option string :=
  Py.dict_get (attrs t) name.

(** A [tr]: the result of [tr.find_all('td')]. *)
Definition Tr : Type := list Tag.

(** A [tbody]: the result of [tbody.find_all('tr')]. *)
Definition TBody : Type := list Tr.

(** A [table]: the result of [table.find('tbody')]. *)
Record Table : Type := mkTable { find_tbody : option TBody }.

(** A parsed page: the result of [soup.find('table', {'id': 'rdn'})]. *)
Record Document : Type := mkDocument { find_rdn : option Table }.

End Soup.

(** ** The positional column table *)

Definition COLUMN_MAPPING : list (nat * string) :=
  [ (0, "Instrument");
    (1, "Typ instrumentu");
    (2, "Fixing I - Kurs [PLN/MWh]");
    (3, "Fixing I - Wolumen [MW]");
    (4, "Fixing II - Kurs jednolity [PLN/MWh]");
    (5, "Fixing II - Wolumen [MW]");
    (6, "Notowania ciągłe - Kurs jednolity [EUR/MWh]");
    (7, "Notowania ciągłe - Kurs jednolity [PLN/MWh]");
    (8, "Notowania ciągłe - Wolumen [MW]");
    (9, "Notowania ciągłe - Wolumen kupna [MW]");
    (10, "Notowania ciągłe - Wolumen sprzedaży [MW]");
    (11, "Łącznie - Kurs min. [PLN/MWh]");
    (12, "Łącznie - Kurs max. [PLN/MWh]");
    (13, "Łącznie - Kurs średnioważony [PLN/MWh]");
    (14, "Łącznie - Wolumen [MWh]");
    (15, "Łącznie - Wolumen kupna [MWh]");
    (16, "Łącznie - Wolumen sprzedaży [MWh]") ].

(** [COLUMN_MAPPING.get(idx, default)] *)
Fixpoint mapping_get (m : list (nat * string)) (idx : nat) (default : string)
  : string :=
  match m with
  | [] => default
  | (i, name) :: rest =>
      if Nat.eqb i idx then name else mapping_get rest idx default
  end.

(** ** Rows and the data frame *)

Definition Record_ : Type := Py.dict string.

(** Line 122: [COLUMN_MAPPING.get(idx, f"Kolumna_{idx + 1}")] *)
Definition fallback_name (idx : nat) : string :=
  mapping_get COLUMN_MAPPING idx ("Kolumna_" ++ Py.str_of_nat (idx + 1)).

(** Lines 120-122: the name of the field a cell fills. *)
Definition col_name (idx : nat) (cell : Soup.Tag) : string :=
  let col_name :=
    Py.or_ (Soup.get cell "data-title") (Soup.get cell "data-label") in
  match col_name with
  | Some name => if Py.truthy col_name then name else fallback_name idx
  | None => fallback_name idx
  end.

(** Lines 118-123: the dict of one row. *)
Definition row_dict_of (cells : Soup.Tr) : Record_ :=
  fold_left
    (fun row_dict '(idx, cell) =>
       Py.dict_set row_dict (col_name idx cell) (Soup.get_text_strip cell))
    (Py.enumerate cells) [].

(** Lines 112-124: the rows of a table; a [tr] without [td] is skipped, a
    table without [tbody] has no rows. *)
Definition rows_of (table : Soup.Table) : list Record_ :=
  match Soup.find_tbody table with
  | Some trs =>
      fold_left
        (fun rows cells =>
           match cells with
           | [] => rows
           | _ :: _ => rows ++ [row_dict_of cells]
           end)
        trs []
  | None => []
  end.

(** A cell of a frame of strings: a string, or [NaN] where the row had no
    such field. *)
Definition cell : Type := option string.

(** A [DataFrame]: column labels, and the rows, each with its index label. *)
Record DataFrame : Type := mkDataFrame
  { columns : list string;
    body : list (nat * list cell) }.

Definition add_key (cols : list string) (k : string) : list string :=
  if existsb (String.eqb k) cols then cols else cols ++ [k].

(** [pd.DataFrame(rows)] on a list of dicts: the columns are the keys in the
    order they are first met, the index is [0 .. len(rows) - 1], a field a row
    lacks is [NaN]. *)
Definition frame_columns (rows : list Record_) : list string :=
  fold_left (fun cols r => fold_left add_key (Py.keys r) cols) rows [].

Definition frame_row (cols : list string) (r : Record_) : list cell :=
  map (Py.dict_get r) cols.

Definition DataFrame_of (rows : list Record_) : DataFrame :=
  let cols := frame_columns rows in
  {| columns := cols;
     body := map (fun '(i, r) => (i, frame_row cols r)) (Py.enumerate rows) |}.

(** [len(df)] *)
Definition len (df : DataFrame) : nat := List.length (body df).

(** [name in df.columns] *)
Definition has_column (df : DataFrame) (name : string) : bool :=
  existsb (String.eqb name) (columns df).

Fixpoint position (name : string) (cols : list string) : option nat :=
  match cols with
  | [] => None
  | c :: rest =>
      if String.eqb c name then Some 0%nat
      else option_map S (position name rest)
  end.

(** [df[name]]: the values of a column; [KeyError] when there is none. *)
Definition getitem (df : DataFrame) (name : string) : Outcome (list cell) :=
  match position name (columns df) with
  | Some j => Ret (map (fun row => nth j (snd row) None) (body df))
  | None => Raise KeyError
  end.

(** [series == s]: elementwise, [NaN] equals nothing. *)
Definition series_eq (series : list cell) (s : string) : list bool :=
  map (fun v => match v with
                | Some x => String.eqb x s
                | None => false
                end) series.

(** [df[mask]]: the rows whose mask entry is [True], labels kept. *)
Definition select (df : DataFrame) (mask : list bool) : DataFrame :=
  {| columns := columns df;
     body := map fst (filter snd (combine (body df) mask)) |}.

(** The control signal of one pass through the loop body. *)
Inductive Flow : Type :=
| Continue
| Return (result : option DataFrame).

(** Lines 136-150: filter on the instrument type when there is such a
    column, else hand the frame back whole. *)
Definition filter_instrument (df : DataFrame) : Outcome DataFrame :=
  if has_column df "Typ instrumentu" then
    let instrument_col := "Typ instrumentu" in
    if Py.truthy (Some instrument_col) then
      obind (getitem df instrument_col)
        (fun series => Ret (select df (series_eq series "60")))
    else Ret df
  else Ret df.

(** Lines 105-150: what one attempt does with the parsed page. *)
Definition process_document (doc : Soup.Document) (attempt max_retries : Z)
  : Outcome Flow :=
  match Soup.find_rdn doc with
  | None =>
      if (attempt <? max_retries - 1)%Z then Ret Continue
      else Ret (Return None)
  | Some table =>
      let rows := rows_of table in
      match rows with
      | [] => Ret (Return None)
      | _ :: _ =>
          obind (filter_instrument (DataFrame_of rows))
            (fun df => Ret (Return (Some df)))
      end
  end.

(** ** The world of one invocation

    The network answers the requests in the order they are sent; the trace
    lists what the invocation did to the outside: the session it made, the
    requests it sent, the time it slept, a session it closed.  Console output
    is left out. *)

(** What [BeautifulSoup(response.content, 'lxml')] makes of a body: a tree,
    or an exception of the parser. *)
Inductive Markup : Type :=
| Unparseable
| Parsed (soup : Soup.Document).

Record Response : Type := mkResponse
  { status_code : Z;
    content : Markup }.

(** What [session.get] meets: an exception of the transport (no connection,
    timeout, ...) or a response. *)
Inductive Reply : Type :=
| Fails
| Answers (response : Response).

Inductive Event : Type :=
| EvSession                               (* [requests.Session()] *)
| EvGet (url : string) (timeout : Z)      (* [session.get(url, timeout=...)] *)
| EvSleep (seconds : Z)                   (* [time.sleep(seconds)] *)
| EvClose.                                (* [session.close()] *)

Record World : Type := mkWorld
  { date_env : DateEnv;
    network : nat -> Reply;
    requests : nat;
    trace : list Event }.

(** The world before the call. *)
Definition boot (env : DateEnv) (net : nat -> Reply) : World :=
  mkWorld env net 0 [].

(** Computations: state passing over the world, with exceptions. *)
Definition M (A : Type) : Type := World -> Outcome A * World.

Definition ret {A} (a : A) : M A := fun w => (Ret a, w).

Definition raise {A} (e : Exn) : M A := fun w => (Raise e, w).

Definition bind {A B} (m : M A) (k : A -> M B) : M B :=
  fun w =>
    match m w with
    | (Ret a, w') => k a w'
    | (Raise e, w') => (Raise e, w')
    end.

(** [try: body  except ... as e: handler e] where the handlers between them
    catch every [Exception]. *)
Definition try_except {A} (body : M A) (handler : Exn -> M A) : M A :=
  fun w =>
    match body w with
    | (Ret a, w') => (Ret a, w')
    | (Raise e, w') => handler e w'
    end.

Definition lift {A} (o : Outcome A) : M A := fun w => (o, w).

Declare Scope py_scope.
Delimit Scope py_scope with py.
Notation "x <- m ;; k" := (bind m (fun x => k))
  (at level 100, m at next level, right associativity) : py_scope.
Notation "m ;; k" := (bind m (fun _ => k))
  (at level 100, right associativity) : py_scope.
Local Open Scope py_scope.

Definition emit (e : Event) : M unit :=
  fun w =>
    (Ret tt, mkWorld (date_env w) (network w) (requests w) (trace w ++ [e])).

Definition Session : M unit := emit EvSession.

(** [time.sleep(seconds)], taken to return after any duration. *)
Definition time_sleep (seconds : Z) : M unit := emit (EvSleep seconds).

Definition session_get (url : string) (timeout : Z) : M Response :=
  fun w =>
    let w' := mkWorld (date_env w) (network w) (S (requests w))
                (trace w ++ [EvGet url timeout]) in
    match network w (requests w) with
    | Fails => (Raise RequestException, w')
    | Answers response => (Ret response, w')
    end.

(** [response.raise_for_status()]: [HTTPError] on a 4xx or 5xx status. *)
Definition raise_for_status (response : Response) : M unit :=
  if ((400 <=? status_code response) && (status_code response <? 600))%Z
  then raise RequestException
  else ret tt.

Definition BeautifulSoup (markup : Markup) : M Soup.Document :=
  match markup with
  | Unparseable => raise OtherException
  | Parsed soup => ret soup
  end.

(** ** [scrape_tge_data] *)

Definition url_of (date_str : string) : string :=
  "https://tge.pl/energia-elektryczna-rdn?dateShow=" ++ date_str
  ++ "&dateAction=prev".

(** Lines 94-158: one pass through the body of the [for] loop. *)
Definition attempt_body (url : string) (max_retries attempt : Z) : M Flow :=
  try_except
    ((if (attempt >? 0)%Z then time_sleep (2 ^ attempt) else ret tt) ;;
     response <- session_get url 30 ;;
     raise_for_status response ;;
     soup <- BeautifulSoup (content response) ;;
     lift (process_document soup attempt max_retries))
    (fun e =>
       if is_RequestException e then
         if (attempt =? max_retries - 1)%Z then ret (Return None)
         else ret Continue
       else ret (Return None)).

(** Lines 93-160: the loop over the attempts, and the [return None] after
    it. *)
Fixpoint for_attempts (url : string) (max_retries : Z) (attempts : list Z)
  : M (option DataFrame) :=
  match attempts with
  | [] => ret None
  | attempt :: rest =>
      flow <- attempt_body url max_retries attempt ;;
      match flow with
      | Return result => ret result
      | Continue => for_attempts url max_retries rest
      end
  end.

(** Lines 69-70: the date asked for, today's Polish date by default. *)
Definition date_or_today (env : DateEnv) (date_str : option string)
  : Outcome string :=
  match date_str with
  | None => get_polish_date env
  | Some d => Ret d
  end.

Definition scrape_tge_data (date_str : option string) (max_retries : Z)
  : M (option DataFrame) :=
  date_str <- (fun w => lift (date_or_today (date_env w) date_str) w) ;;
  let url := url_of date_str in
  Session ;;
  for_attempts url max_retries (Py.range max_retries).

(** ** Vocabulary of the statements *)

(** A reply that makes the attempt end in a [RequestException]. *)
Definition transport_failure (r : Reply) : bool :=
  match r with
  | Fails => true
  | Answers response =>
      ((400 <=? status_code response) && (status_code response <? 600))%Z
  end.

(** The page an attempt gets to work on, when the transport succeeded and the
    parser gave a tree. *)
Definition page_of (r : Reply) : option Soup.Document :=
  match r with
  | Fails => None
  | Answers response =>
      if transport_failure r then None
      else match content response with
           | Unparseable => None
           | Parsed soup => Some soup
           end
  end.

(** The two structural failures: no table, and a table that yields no row. *)
Definition table_missing (r : Reply) : bool :=
  match page_of r with
  | Some soup =>
      match Soup.find_rdn soup with
      | None => true
      | Some _ => false
      end
  | None => false
  end.

Definition no_rows (r : Reply) : bool :=
  match page_of r with
  | Some soup =>
      match Soup.find_rdn soup with
      | Some table =>
          match rows_of table with
          | [] => true
          | _ :: _ => false
          end
      | None => false
      end
  | None => false
  end.

(** The reply to the [i]-th request of an invocation that starts in [w]. *)
Definition reply_at (w : World) (i : nat) : Reply :=
  network w (requests w + i).

(** What an attempt does to the outside: a sleep unless it is the first, then
    one request. *)
Definition attempt_events (url : string) (attempt : Z) : list Event :=
  (if (attempt >? 0)%Z then [EvSleep (2 ^ attempt)] else [])
  ++ [EvGet url 30].

(** The world after one more attempt. *)
Definition after_attempt (url : string) (attempt : Z) (w : World) : World :=
  mkWorld (date_env w) (network w) (S (requests w))
    (trace w ++ attempt_events url attempt).

(** The world after the session was made and the attempts [0 .. n - 1] were
    gone through. *)
Definition after_attempts (url : string) (n : nat) (w : World) : World :=
  mkWorld (date_env w) (network w) (requests w + n)
    (trace w ++ EvSession :: flat_map (attempt_events url) (Py.range (Z.of_nat n))).

(** How an attempt ends, from the reply it meets: the exception handlers of
    lines 152-158 around the body. *)
Definition on_RequestException (max_retries attempt : Z) : Flow :=
  if (attempt =? max_retries - 1)%Z then Return None else Continue.

Definition attempt_flow (r : Reply) (max_retries attempt : Z) : Flow :=
  match r with
  | Fails => on_RequestException max_retries attempt
  | Answers response =>
      if transport_failure r then on_RequestException max_retries attempt
      else match content response with
           | Unparseable => Return None
           | Parsed soup =>
               match process_document soup attempt max_retries with
               | Ret flow => flow
               | Raise e =>
                   if is_RequestException e
                   then on_RequestException max_retries attempt
                   else Return None
               end
           end
  end.

(** The events of a run of [k + 1] attempts: a request, then [k] times a
    sleep of 2, 4, ... seconds and a request. *)
Definition retry_events (url : string) (k : nat) : list Event :=
  EvGet url 30
  :: flat_map (fun i => [EvSleep (2 ^ Z.of_nat i); EvGet url 30]) (seq 1 k).

Definition count_gets (tr : list Event) : nat :=
  List.length (filter (fun e => match e with EvGet _ _ => true | _ => false end) tr).

Definition sleeps (tr : list Event) : list Z :=
  flat_map (fun e => match e with EvSleep s => [s] | _ => [] end) tr.

(** What [get_polish_date] may find: a library is there and gives a
    [datetime], or it is not there and its import fails. *)
Definition gives_time (o : Outcome Datetime.datetime) : bool :=
  match o with
  | Ret t => Datetime.valid t
  | Raise _ => true
  end.

Definition present_or_absent (o : Outcome Datetime.datetime) : bool :=
  match o with
  | Ret t => Datetime.valid t
  | Raise ImportError => true
  | Raise _ => false
  end.

(** The surroundings in which the date is computed from the UTC clock. *)
Definition uses_clock (env : DateEnv) : bool :=
  match zoneinfo_now env, pytz_now env with
  | Raise _, Raise ImportError => true
  | _, _ => false
  end.

(** The year of the time [get_polish_date] formats has four digits. *)
Definition year_has_four_digits (env : DateEnv) : bool :=
  match zoneinfo_now env with
  | Ret t => (1000 <=? Datetime.year t)%Z
  | Raise _ =>
      match pytz_now env with
      | Ret t => (1000 <=? Datetime.year t)%Z
      | Raise _ => (1000 <=? Datetime.year (utcnow env))%Z
      end
  end.

(** Padded or not, the year [y] is formatted the same. *)
Definition year_formats_agree (y : Z) : bool :=
  String.eqb (Datetime.format_year false y) (Datetime.format_year true y).

(** The last hour of the last day [datetime] can hold. *)
Definition last_hour_of_time (t : Datetime.datetime) : bool :=
  ((Datetime.year t =? Datetime.MAXYEAR) && (Datetime.month t =? 12)
   && (Datetime.day t =? 31) && (Datetime.hour t =? 23))%Z.

(** The day [d] is the last Sunday of month [m] of year [y]. *)
Definition is_last_sunday (y m d : Z) : bool :=
  (Datetime.valid_date y m d && (Datetime.weekday y m d =? 6)
   && (Datetime.days_in_month y m <? d + 7))%Z.

Definition last_sundays_found (y : Z) : bool :=
  match Datetime.last_sunday y 3, Datetime.last_sunday y 10 with
  | Ret a, Ret b => is_last_sunday y 3 a && is_last_sunday y 10 b
  | _, _ => false
  end.

(** The rows the extractor builds from a page. *)
Definition data_rows (doc : Soup.Document) : list Record_ :=
  match Soup.find_rdn doc with
  | Some table => rows_of table
  | None => []
  end.

Definition has_field (name : string) (r : Record_) : bool :=
  match Py.dict_get r name with
  | Some _ => true
  | None => false
  end.

Definition field_is (name value : string) (r : Record_) : bool :=
  match Py.dict_get r name with
  | Some v => String.eqb v value
  | None => false
  end.

(** A well-formed page: the table and its body are there, and the rows carry
    the instrument type (at least one of them does). *)
Definition well_formed (doc : Soup.Document) : bool :=
  match Soup.find_rdn doc with
  | Some table =>
      match Soup.find_tbody table with
      | Some _ => existsb (has_field "Typ instrumentu") (rows_of table)
      | None => false
      end
  | None => false
  end.

(** The frame rows of the records of [rows] that satisfy [keep], each under
    the label of its place in [rows]. *)
Definition kept_rows (keep : Record_ -> bool) (rows : list Record_)
  : list (nat * list cell) :=
  map (fun '(i, r) => (i, frame_row (frame_columns rows) r))
    (filter (fun '(_, r) => keep r) (Py.enumerate rows)).

(** A [tr] that holds at least one [td]: a data row. *)
Definition has_cells (cells : Soup.Tr) : bool :=
  match cells with
  | [] => false
  | _ :: _ => true
  end.

(** A cell without a usable label: [data-title] and [data-label] are absent
    or empty. *)
Definition unlabelled (c : Soup.Tag) : bool :=
  negb (Py.truthy (Soup.get c "data-title"))
  && negb (Py.truthy (Soup.get c "data-label")).

(** ** Sample pages *)

Definition td (text : string) : Soup.Tag := Soup.mkTag [] text.

Definition td_titled (title text : string) : Soup.Tag :=
  Soup.mkTag [("data-title", title)] text.

(** A page in the expected shape: three data rows and a [tr] without cells;
    the cells carry no label. *)
Definition sample_page : Soup.Document :=
  Soup.mkDocument (Some (Soup.mkTable (Some
    [ [td "BASE_04-11-26"; td "60"; td "449,00"];
      [];
      [td "PEAK_04-11-26"; td "15"; td "512,30"];
      [td "OFFPEAK_04-11-26"; td "60"; td "401,75"] ]))).

(** A page whose cells are labelled, none of them as the instrument type. *)
Definition sample_page_without_type : Soup.Document :=
  Soup.mkDocument (Some (Soup.mkTable (Some
    [ [td_titled "Kontrakt" "BASE_04-11-26"; td_titled "Kurs" "449,00"];
      [td_titled "Kontrakt" "PEAK_04-11-26"; td_titled "Kurs" "512,30"] ]))).

(** Pages with a structural failure: no table; a table without body. *)
Definition sample_page_no_table : Soup.Document := Soup.mkDocument None.

Definition sample_page_no_body : Soup.Document :=
  Soup.mkDocument (Some (Soup.mkTable None)).

(** Surroundings in which the first time-zone library answers. *)
Definition sample_env : DateEnv :=
  mkDateEnv false (Ret (Datetime.mkDatetime 2026 11 4 9 30 0 0))
    (Raise ImportError) (Datetime.mkDatetime 2026 11 4 8 30 0 0).

Definition ok (doc : Soup.Document) : Reply :=
  Answers (mkResponse 200 (Parsed doc)).

(** What the extractor returns for [sample_page]. *)
Definition sample_frame : DataFrame :=
  {| columns := ["Instrument"; "Typ instrumentu"; "Fixing I - Kurs [PLN/MWh]"];
     body := [ (0%nat, [Some "BASE_04-11-26"; Some "60"; Some "449,00"]);
               (2%nat, [Some "OFFPEAK_04-11-26"; Some "60"; Some "401,75"]) ] |}.

(** A network that is down. *)
Definition net_down : nat -> Reply := fun _ => Fails.

(** A network that fails twice, by a refused connection and by a 503, and
    then serves [sample_page]. *)
Definition net_third_time : nat -> Reply :=
  fun i =>
    match i with
    | 0%nat => Fails
    | 1%nat => Answers (mkResponse 503 Unparseable)
    | _ => ok sample_page
    end.

(** A network that serves a page without the table once, then [sample_page]. *)
Definition net_table_late : nat -> Reply :=
  fun i =>
    match i with
    | 0%nat => ok sample_page_no_table
    | _ => ok sample_page
    end.

(** ** Further vocabulary *)

(** Line 123, one pass of the inner loop: the text of the cell is stored
    under the name of the cell. *)
Definition set_cell (row_dict : Record_) (entry : nat * Soup.Tag) : Record_ :=
  let '(idx, cell) := entry in
  Py.dict_set row_dict (col_name idx cell) (Soup.get_text_strip cell).

(** The field a cell stands for: its name and its text. *)
Definition field_of (entry : nat * Soup.Tag) : string * string :=
  let '(idx, cell) := entry in (col_name idx cell, Soup.get_text_strip cell).

(** The cell of a frame row in column number [j] is the string [value]. *)
Definition row_has (j : nat) (value : string) (row : nat * list cell) : bool :=
  match nth j (snd row) None with
  | Some x => String.eqb x value
  | None => false
  end.

(** The seconds an invocation spent sleeping, from its trace. *)
Definition total_sleep (tr : list Event) : Z := fold_right Z.add 0%Z (sleeps tr).

(** The same world with another network. *)
Definition with_network (net : nat -> Reply) (w : World) : World :=
  mkWorld (date_env w) net (requests w) (trace w).

(** ** The script around the scraper: [display_data], [save_to_file] and
    the main block

    The host of the script holds the world of the scraper and what the
    script meets besides: the paths of the file system, the local clock, and
    the list of what the script did to the process and the disk.  As before,
    console messages are left out; the printing of the frame itself is an
    action. *)

Inductive Action : Type :=
| ActSetOption (name : string)     (* [pd.set_option(name, None)] *)
| ActShow (df : DataFrame)         (* [print(df.to_string(index=False))] *)
| ActToCsv (filepath : string) (df : DataFrame).
    (* [df.to_csv(filepath, index=False, encoding='utf-8-sig')] *)

Record Host : Type := mkHost
  { world : World;
    expanduser_desktop : string;             (* [os.path.expanduser("~\Desktop")] *)
    path_exists : string -> bool;            (* [os.path.exists] *)
    path_join : string -> string -> string;  (* [os.path.join] *)
    to_csv_raises : string -> bool;          (* writing to that path fails *)
    local_now : Datetime.datetime;           (* [datetime.now()] *)
    actions : list Action }.

Definition H (A : Type) : Type := Host -> Outcome A * Host.

Definition hret {A} (a : A) : H A := fun h => (Ret a, h).

Definition hbind {A B} (m : H A) (k : A -> H B) : H B :=
  fun h =>
    match m h with
    | (Ret a, h') => k a h'
    | (Raise e, h') => (Raise e, h')
    end.

(** [try: body  except Exception as e: handler e] *)
Definition htry {A} (body : H A) (handler : Exn -> H A) : H A :=
  fun h =>
    match body h with
    | (Ret a, h') => (Ret a, h')
    | (Raise e, h') => handler e h'
    end.

Definition act (a : Action) : H unit :=
  fun h =>
    (Ret tt,
     mkHost (world h) (expanduser_desktop h) (path_exists h) (path_join h)
       (to_csv_raises h) (local_now h) (actions h ++ [a])).

(** A computation of the scraper, run in the host. *)
Definition in_world {A} (m : M A) : H A :=
  fun h =>
    let '(r, w') := m (world h) in
    (r, mkHost w' (expanduser_desktop h) (path_exists h) (path_join h)
          (to_csv_raises h) (local_now h) (actions h)).

(** [df.to_csv(filepath, index=False, encoding='utf-8-sig')]: the call is
    made, and raises when the path cannot be written. *)
Definition to_csv (df : DataFrame) (filepath : string) : H unit :=
  hbind (act (ActToCsv filepath df))
    (fun _ h => if to_csv_raises h filepath
                then (Raise OtherException, h) else (Ret tt, h)).

(** [df.empty]: an axis of the frame has length 0. *)
Definition empty (df : DataFrame) : bool :=
  match columns df, body df with
  | [], _ => true
  | _, [] => true
  | _ :: _, _ :: _ => false
  end.

(** Lines 162-184. *)
Definition save_to_file (df : option DataFrame) (filename : string) : H unit :=
  match df with
  | None => hret tt
  | Some df =>
      if empty df then hret tt
      else
        htry
          (fun h =>
             let desktop_path := expanduser_desktop h in
             let desktop_path :=
               if negb (path_exists h desktop_path) then "." else desktop_path in
             let filepath := path_join h desktop_path filename in
             to_csv df filepath h)
          (fun _ => hret tt)
  end.

(** Lines 186-206. *)
Definition display_data (df : option DataFrame) : H unit :=
  match df with
  | None => hret tt
  | Some df =>
      if empty df then hret tt
      else
        hbind (act (ActSetOption "display.max_columns")) (fun _ =>
        hbind (act (ActSetOption "display.width")) (fun _ =>
        hbind (act (ActSetOption "display.max_colwidth")) (fun _ =>
        act (ActShow df))))
  end.

(** [strftime("%Y%m%d_%H%M%S")] *)
Definition strftime_stamp (padded : bool) (t : Datetime.datetime) : string :=
  (Datetime.format_year padded (Datetime.year t)
   ++ Datetime.pad2 (Datetime.month t)
   ++ Datetime.pad2 (Datetime.day t) ++ "_"
   ++ Datetime.pad2 (Datetime.hour t) ++ Datetime.pad2 (Datetime.minute t)
   ++ Datetime.pad2 (Datetime.second t))%string.

(** Lines 208-221: the main block. *)
Definition main : H unit :=
  hbind (in_world (scrape_tge_data None 3)) (fun data =>
    match data with
    | Some df =>
        if negb (empty df) then
          hbind (display_data (Some df)) (fun _ h =>
            let timestamp :=
              strftime_stamp (pads_year (date_env (world h))) (local_now h) in
            let filename := ("tge_data_" ++ timestamp ++ ".csv")%string in
            save_to_file (Some df) filename h)
        else hret tt
    | None => hret tt
    end).

(** What the script does with a frame it got: the options, the listing, the
    file. *)
Definition shown_and_saved (h : Host) (df : DataFrame) : list Action :=
  [ ActSetOption "display.max_columns"; ActSetOption "display.width";
    ActSetOption "display.max_colwidth"; ActShow df;
    ActToCsv
      (path_join h
         (if path_exists h (expanduser_desktop h)
          then expanduser_desktop h else ".")
         ("tge_data_"
          ++ strftime_stamp (pads_year (date_env (world h))) (local_now h)
          ++ ".csv")%string)
      df ].

(** A host whose desktop folder is missing and whose disk can be written. *)
Definition sample_host (net : nat -> Reply) : Host :=
  mkHost (boot sample_env net) "~\Desktop" (fun _ => false)
    (fun dir name => (dir ++ "/" ++ name)%string) (fun _ => false)
    (Datetime.mkDatetime 2026 11 4 10 30 5 0) [].

(** A page in the expected shape without a row of type 60. *)
Definition sample_page_other_types : Soup.Document :=
  Soup.mkDocument (Some (Soup.mkTable (Some
    [ [td "PEAK_04-11-26"; td "15"; td "512,30"];
      [td "OFFPEAK_04-11-26"; td "30"; td "401,75"] ]))).

(** * Properties *)

(** ** Dictionaries *)

Section DictFacts.

Context {V : Type}.

Lemma dict_get_set_same (d : Py.dict V) k v :
  Py.dict_get (Py.dict_set d k v) k = Some v.
Proof.
  induction d as [|[k' v'] d IH]; simpl.
  - now rewrite String.eqb_refl.
  - destruct (String.eqb k' k) eqn:E; simpl; rewrite E; auto.
Qed.

Lemma dict_get_set_other (d : Py.dict V) k v k' :
  k' <> k -> Py.dict_get (Py.dict_set d k v) k' = Py.dict_get d k'.
Proof.
  intros Hne. induction d as [|[k0 v0] d IH]; simpl.
  - destruct (String.eqb_spec k k'); congruence.
  - destruct (String.eqb_spec k0 k); simpl.
    + subst k0. destruct (String.eqb_spec k k'); congruence.
    + now rewrite IH.
Qed.

Lemma keys_dict_set (d : Py.dict V) k v k' :
  In k' (Py.keys (Py.dict_set d k v)) <-> In k' (Py.keys d) \/ k' = k.
Proof.
  unfold Py.keys. induction d as [|[k0 v0] d IH]; simpl.
  - intuition.
  - destruct (String.eqb_spec k0 k); simpl.
    + subst k0. intuition.
    + rewrite IH. intuition.
Qed.

Lemma dict_get_some_iff_key (d : Py.dict V) k :
  (exists v, Py.dict_get d k = Some v) <-> In k (Py.keys d).
Proof.
  unfold Py.keys. induction d as [|[k0 v0] d IH]; simpl.
  - split; [intros [v Hv]; discriminate | tauto].
  - destruct (String.eqb_spec k0 k).
    + split; eauto.
    + rewrite IH. intuition.
Qed.

Lemma dict_get_none_iff (d : Py.dict V) k :
  Py.dict_get d k = None <-> ~ In k (Py.keys d).
Proof.
  rewrite <- dict_get_some_iff_key.
  destruct (Py.dict_get d k) as [v|]; split; try congruence.
  - intros H. exfalso. apply H. now exists v.
  - intros _ [v Hv]. discriminate.
Qed.

End DictFacts.

Lemma enumerate_from_nth {A} (l : list A) : forall i j x,
  nth_error l j = Some x -> In (i + j, x)%nat (Py.enumerate_from i l).
Proof.
  induction l as [|y l IH]; intros i j x Hj.
  - destruct j; discriminate.
  - destruct j as [|j]; simpl in *.
    + injection Hj as ->. left. f_equal. lia.
    + right. replace (i + S j)%nat with (S i + j)%nat by lia. now apply IH.
Qed.

Lemma enumerate_from_length {A} (l : list A) : forall i,
  List.length (Py.enumerate_from i l) = List.length l.
Proof. induction l; simpl; intros; auto. Qed.

Lemma enumerate_from_snd {A} (l : list A) : forall i,
  map snd (Py.enumerate_from i l) = l.
Proof. induction l; simpl; intros; f_equal; auto. Qed.

(** ** The name of a field *)

Lemma col_name_labelled idx c name :
  Py.or_ (Soup.get c "data-title") (Soup.get c "data-label") = Some name ->
  name <> "" -> col_name idx c = name.
Proof.
  intros Hor Hne. unfold col_name. rewrite Hor. simpl.
  destruct (String.eqb_spec name ""); [contradiction | reflexivity].
Qed.

Lemma col_name_unlabelled idx c :
  unlabelled c = true -> col_name idx c = fallback_name idx.
Proof.
  unfold unlabelled, col_name, fallback_name, Py.or_.
  intros H. apply andb_prop in H as [Ht Hl].
  apply negb_true_iff in Ht, Hl. rewrite Ht.
  destruct (Soup.get c "data-label") as [l|]; [|reflexivity].
  now rewrite Hl.
Qed.

Lemma fallback_name_table idx :
  (idx < 17)%nat ->
  nth_error (map snd COLUMN_MAPPING) idx = Some (fallback_name idx).
Proof.
  intros H. unfold fallback_name.
  do 17 (destruct idx as [|idx]; [reflexivity|]). lia.
Qed.

Lemma fallback_name_synthetic idx :
  (17 <= idx)%nat ->
  fallback_name idx = ("Kolumna_" ++ Py.str_of_nat (idx + 1))%string.
Proof.
  intros H. unfold fallback_name.
  do 17 (destruct idx as [|idx]; [lia|]). reflexivity.
Qed.

Lemma row_dict_fold_keys (cells : list (nat * Soup.Tag)) : forall acc k,
  In k (Py.keys
          (fold_left
             (fun row_dict '(idx, cell) =>
                Py.dict_set row_dict (col_name idx cell)
                  (Soup.get_text_strip cell))
             cells acc))
  <-> In k (Py.keys acc) \/ exists idx cell, In (idx, cell) cells /\ k = col_name idx cell.
Proof.
  induction cells as [|[i c] cells IH]; intros acc k; simpl.
  - split; [tauto | intros [H|(idx & cell & [] & _)]; exact H].
  - rewrite IH, keys_dict_set. split.
    + intros [[H|H]|(idx & cell & Hin & Hk)]; eauto 6.
    + intros [H|(idx & cell & [Heq|Hin] & Hk)]; eauto 6.
      injection Heq as <- <-. auto.
Qed.

Lemma row_dict_has_field cells idx c :
  nth_error cells idx = Some c ->
  In (col_name idx c) (Py.keys (row_dict_of cells)).
Proof.
  intros H. unfold row_dict_of. apply row_dict_fold_keys. right.
  exists idx, c. split; [|reflexivity].
  apply (enumerate_from_nth cells 0 idx c H).
Qed.

(** C5 (field names).  The name of the field a cell fills is its
    [data-title] when that is present and not empty, else its [data-label]
    when that is, else the entry of the 17-entry positional table for the
    position of the cell, else, past the table, [Kolumna_] followed by the
    one-based position.  So a cell whose label is [Instrument] fills the field
    [Instrument] wherever it stands, an unlabelled cell at position 2 fills
    [Fixing I - Kurs [PLN/MWh]], and the name so found is a field of the
    record built from the row. *)
Theorem col_name_resolution (idx : nat) (c : Soup.Tag) :
  (forall t, Soup.get c "data-title" = Some t -> t <> "" ->
             col_name idx c = t)
  /\ (forall l, Py.truthy (Soup.get c "data-title") = false ->
                Soup.get c "data-label" = Some l -> l <> "" ->
                col_name idx c = l)
  /\ (unlabelled c = true -> (idx < 17)%nat ->
      nth_error (map snd COLUMN_MAPPING) idx = Some (col_name idx c))
  /\ (unlabelled c = true -> (17 <= idx)%nat ->
      col_name idx c = ("Kolumna_" ++ Py.str_of_nat (idx + 1))%string)
  /\ (Py.or_ (Soup.get c "data-title") (Soup.get c "data-label")
      = Some "Instrument" -> col_name idx c = "Instrument")
  /\ (unlabelled c = true -> idx = 2%nat ->
      col_name idx c = "Fixing I - Kurs [PLN/MWh]")
  /\ map fst COLUMN_MAPPING = seq 0 17
  /\ (forall cells, nth_error cells idx = Some c ->
                    In (col_name idx c) (Py.keys (row_dict_of cells))).
Proof.
  repeat split.
  - intros t Ht Hne. apply col_name_labelled; [|exact Hne].
    unfold Py.or_. rewrite Ht. simpl.
    destruct (String.eqb_spec t ""); [contradiction | reflexivity].
  - intros l Ht Hl Hne. apply col_name_labelled; [|exact Hne].
    unfold Py.or_. now rewrite Ht.
  - intros Hu Hlt. rewrite (col_name_unlabelled idx c Hu).
    now apply fallback_name_table.
  - intros Hu Hge. rewrite (col_name_unlabelled idx c Hu).
    now apply fallback_name_synthetic.
  - intros H. apply col_name_labelled; [exact H | discriminate].
  - intros Hu ->. now rewrite (col_name_unlabelled 2 c Hu).
  - intros cells. apply row_dict_has_field.
Qed.

Lemma col_name_resolution_witness :
  col_name 9 (Soup.mkTag [("class", "footable"); ("data-title", "Instrument")]
                "BASE_04-11-26") = "Instrument"
  /\ col_name 2 (Soup.mkTag [("class", "footable")] "449,00")
     = "Fixing I - Kurs [PLN/MWh]"
  /\ col_name 17 (Soup.mkTag [] "-") = "Kolumna_18".
Proof.
  split; [|split].
  - apply (proj1 (proj2 (proj2 (proj2 (proj2 (col_name_resolution 9 _)))))).
    reflexivity.
  - apply (proj1 (proj2 (proj2 (proj2 (proj2 (proj2
             (col_name_resolution 2 _))))))); reflexivity.
  - apply (proj1 (proj2 (proj2 (proj2 (col_name_resolution 17 _)))));
      [reflexivity | simpl; lia].
Defined.

(** ** The frame of a list of records *)

Lemma existsb_eqb_In (k : string) (l : list string) :
  existsb (String.eqb k) l = true <-> In k l.
Proof.
  rewrite existsb_exists. split.
  - intros (x & Hin & Heq). apply String.eqb_eq in Heq. now subst.
  - intros Hin. exists k. split; [exact Hin | apply String.eqb_refl].
Qed.

Lemma add_key_In cols k c :
  In c (add_key cols k) <-> In c cols \/ c = k.
Proof.
  unfold add_key. destruct (existsb (String.eqb k) cols) eqn:E.
  - apply existsb_eqb_In in E. split; [auto | intros [H| ->]; auto].
  - rewrite in_app_iff. simpl. intuition.
Qed.

Lemma fold_add_key_In ks : forall cols c,
  In c (fold_left add_key ks cols) <-> In c cols \/ In c ks.
Proof.
  induction ks as [|k ks IH]; intros cols c; simpl.
  - tauto.
  - rewrite IH, add_key_In. intuition.
Qed.

Lemma frame_columns_fold_In (rows : list Record_) : forall cols c,
  In c (fold_left (fun cols r => fold_left add_key (Py.keys r) cols) rows cols)
  <-> In c cols \/ exists r, In r rows /\ In c (Py.keys r).
Proof.
  induction rows as [|r rows IH]; intros cols c; simpl.
  - split; [tauto | intros [H|(r & [] & _)]; exact H].
  - rewrite IH, fold_add_key_In. split.
    + intros [[H|H]|(r' & Hin & Hk)]; eauto 6.
    + intros [H|(r' & [<-|Hin] & Hk)]; eauto 6.
Qed.

Lemma frame_columns_In rows c :
  In c (frame_columns rows) <-> exists r, In r rows /\ In c (Py.keys r).
Proof.
  unfold frame_columns. rewrite frame_columns_fold_In. simpl. tauto.
Qed.

Lemma has_field_key name (r : Record_) :
  has_field name r = true <-> In name (Py.keys r).
Proof.
  unfold has_field. rewrite <- dict_get_some_iff_key.
  destruct (Py.dict_get r name) as [v|]; split; eauto; try discriminate.
  intros [v Hv]. discriminate.
Qed.

Lemma has_column_frame rows name :
  has_column (DataFrame_of rows) name = existsb (has_field name) rows.
Proof.
  unfold has_column, DataFrame_of. simpl.
  apply eq_true_iff_eq. rewrite existsb_eqb_In, frame_columns_In, existsb_exists.
  split; intros (r & Hin & H); exists r; split; auto; now apply has_field_key.
Qed.

Lemma position_nth {B} (name : string) (cols : list string) :
  In name cols ->
  exists j, position name cols = Some j
            /\ forall (f : string -> option B), nth j (map f cols) None = f name.
Proof.
  induction cols as [|c cols IH]; simpl; [tauto|].
  intros Hin. destruct (String.eqb_spec c name) as [->|Hne].
  - exists 0%nat. split; reflexivity.
  - destruct Hin as [Heq|Hin]; [contradiction|].
    destruct (IH Hin) as (j & Hpos & Hnth).
    exists (S j). rewrite Hpos. split; [reflexivity | exact Hnth].
Qed.

Lemma select_by_own_mask {A} (g : A -> bool) (l : list A) :
  map fst (filter snd (combine l (map g l))) = filter g l.
Proof.
  induction l as [|x l IH]; simpl; [reflexivity|].
  destruct (g x); simpl; now rewrite IH.
Qed.

Lemma filter_map_comm {A B} (f : A -> B) (g : B -> bool) (l : list A) :
  filter g (map f l) = map f (filter (fun x => g (f x)) l).
Proof.
  induction l as [|x l IH]; simpl; [reflexivity|].
  destruct (g (f x)); simpl; now rewrite IH.
Qed.

Lemma enumerate_from_filter {A} (keep : A -> bool) (l : list A) : forall i,
  map snd (filter (fun '(_, x) => keep x) (Py.enumerate_from i l))
  = filter keep l.
Proof.
  induction l as [|x l IH]; intros i; simpl; [reflexivity|].
  destruct (keep x); simpl; now rewrite IH.
Qed.

Lemma kept_rows_values keep rows :
  map snd (kept_rows keep rows)
  = map (frame_row (frame_columns rows)) (filter keep rows).
Proof.
  unfold kept_rows, Py.enumerate.
  rewrite <- (enumerate_from_filter keep rows 0), !map_map.
  apply map_ext. now intros [i r].
Qed.

Lemma kept_rows_length keep rows :
  List.length (kept_rows keep rows) = List.length (filter keep rows).
Proof.
  rewrite <- (length_map snd), kept_rows_values. apply length_map.
Qed.

Lemma rows_of_fold (trs : list Soup.Tr) : forall acc,
  fold_left
    (fun rows cells =>
       match cells with
       | [] => rows
       | _ :: _ => rows ++ [row_dict_of cells]
       end) trs acc
  = acc ++ map row_dict_of (filter has_cells trs).
Proof.
  induction trs as [|cells trs IH]; intros acc; simpl.
  - now rewrite app_nil_r.
  - rewrite IH. destruct cells; simpl; [reflexivity|].
    now rewrite <- app_assoc.
Qed.

(** The rows of a table are the records of the [tr]s of its body that hold
    cells, in the order of the body. *)
Lemma rows_of_body table trs :
  Soup.find_tbody table = Some trs ->
  rows_of table = map row_dict_of (filter has_cells trs).
Proof.
  intros H. unfold rows_of. rewrite H. apply rows_of_fold.
Qed.

Lemma filter_instrument_absent rows :
  existsb (has_field "Typ instrumentu") rows = false ->
  filter_instrument (DataFrame_of rows) = Ret (DataFrame_of rows).
Proof.
  intros H. unfold filter_instrument. now rewrite has_column_frame, H.
Qed.

Lemma filter_instrument_present rows :
  existsb (has_field "Typ instrumentu") rows = true ->
  filter_instrument (DataFrame_of rows)
  = Ret {| columns := frame_columns rows;
           body := kept_rows (field_is "Typ instrumentu" "60") rows |}.
Proof.
  intros H. unfold filter_instrument. rewrite has_column_frame, H.
  cbn [Py.truthy String.eqb negb].
  assert (Hin : In "Typ instrumentu" (frame_columns rows)).
  { apply frame_columns_In. apply existsb_exists in H as (r & Hr & Hf).
    exists r. split; [exact Hr | now apply has_field_key]. }
  destruct (position_nth (B := string) _ _ Hin) as (j & Hpos & Hnth).
  unfold getitem. cbn [columns DataFrame_of]. rewrite Hpos.
  cbn [obind]. unfold select, series_eq. cbn [columns body DataFrame_of].
  f_equal. f_equal. rewrite map_map, select_by_own_mask, filter_map_comm.
  unfold kept_rows. f_equal. apply filter_ext. intros [i r].
  cbn [snd]. unfold frame_row. rewrite Hnth. reflexivity.
Qed.

Lemma data_rows_table doc :
  data_rows doc <> [] ->
  exists table, Soup.find_rdn doc = Some table /\ rows_of table = data_rows doc.
Proof.
  unfold data_rows. destruct (Soup.find_rdn doc) as [table|]; [eauto | congruence].
Qed.

Lemma process_document_rows doc attempt max_retries :
  data_rows doc <> [] ->
  process_document doc attempt max_retries
  = obind (filter_instrument (DataFrame_of (data_rows doc)))
      (fun df => Ret (Return (Some df))).
Proof.
  intros H. destruct (data_rows_table doc H) as (table & Ht & Hr).
  unfold process_document. rewrite Ht, Hr.
  destruct (data_rows doc); [congruence | reflexivity].
Qed.

Lemma well_formed_rows doc :
  well_formed doc = true ->
  existsb (has_field "Typ instrumentu") (data_rows doc) = true
  /\ data_rows doc <> []
  /\ exists table trs,
       Soup.find_rdn doc = Some table /\ Soup.find_tbody table = Some trs
       /\ data_rows doc = map row_dict_of (filter has_cells trs).
Proof.
  unfold well_formed, data_rows.
  destruct (Soup.find_rdn doc) as [table|]; [|discriminate].
  destruct (Soup.find_tbody table) as [trs|] eqn:Hb; [|discriminate].
  intros H. split; [exact H|]. split.
  - intros E. rewrite E in H. discriminate.
  - exists table, trs. split; [reflexivity|]. split; [exact Hb|].
    now apply rows_of_body.
Qed.

(** C1 (filtering).  From a well-formed page the extractor returns a frame
    whose rows are exactly the records whose field [Typ instrumentu] is
    ["60"], in the order of the table body and under the labels of their
    places there: of the N data rows (the [tr]s of the body that hold cells),
    the M that match. *)
Theorem extractor_keeps_type_60 (doc : Soup.Document) (attempt max_retries : Z) :
  well_formed doc = true ->
  let rows := data_rows doc in
  let is_60 := field_is "Typ instrumentu" "60" in
  exists df table trs,
    process_document doc attempt max_retries = Ret (Return (Some df))
    /\ Soup.find_rdn doc = Some table /\ Soup.find_tbody table = Some trs
    /\ rows = map row_dict_of (filter has_cells trs)
    /\ columns df = frame_columns rows
    /\ body df = kept_rows is_60 rows
    /\ map snd (body df) = map (frame_row (columns df)) (filter is_60 rows)
    /\ len df = List.length (filter is_60 rows)
    /\ (len df <= List.length rows)%nat.
Proof.
  intros Hwf rows is_60.
  destruct (well_formed_rows doc Hwf) as (Hcol & Hne & table & trs & Ht & Hb & Hrows).
  exists {| columns := frame_columns rows; body := kept_rows is_60 rows |}, table, trs.
  unfold len. cbn [columns body].
  rewrite kept_rows_values, kept_rows_length.
  repeat split; auto.
  - rewrite (process_document_rows doc attempt max_retries Hne).
    fold rows. unfold rows at 1. now rewrite (filter_instrument_present _ Hcol).
  - apply filter_length_le.
Qed.

Lemma extractor_keeps_type_60_witness :
  well_formed sample_page = true
  /\ exists df,
       process_document sample_page 0 3 = Ret (Return (Some df))
       /\ body df
          = [ (0%nat, [Some "BASE_04-11-26"; Some "60"; Some "449,00"]);
              (2%nat, [Some "OFFPEAK_04-11-26"; Some "60"; Some "401,75"]) ].
Proof.
  split; [reflexivity|].
  destruct (extractor_keeps_type_60 sample_page 0 3 eq_refl)
    as (df & table & trs & Hrun & _ & _ & _ & _ & Hbody & _).
  exists df. split; [exact Hrun|]. rewrite Hbody. reflexivity.
Defined.

Lemma frame_len rows : len (DataFrame_of rows) = List.length rows.
Proof.
  unfold len, DataFrame_of. cbn [body]. rewrite length_map.
  apply enumerate_from_length.
Qed.

Lemma frame_values rows :
  map snd (body (DataFrame_of rows))
  = map (frame_row (columns (DataFrame_of rows))) rows.
Proof.
  unfold DataFrame_of. cbn [body columns]. rewrite map_map.
  unfold Py.enumerate. generalize (frame_columns rows) as cols.
  intros cols. generalize 0%nat.
  induction rows as [|r rs IH]; intros i; simpl; [reflexivity|].
  f_equal. apply IH.
Qed.

Lemma frame_index rows :
  map fst (body (DataFrame_of rows)) = seq 0 (List.length rows).
Proof.
  unfold DataFrame_of. cbn [body]. rewrite map_map.
  unfold Py.enumerate. generalize (frame_columns rows) as cols.
  intros cols. generalize 0%nat.
  induction rows as [|r rs IH]; intros i; simpl; [reflexivity|].
  f_equal. apply IH.
Qed.

(** C6 (no instrument-type field).  When the extractor has built records and
    none of them has a field named [Typ instrumentu], it returns the frame of
    all of them, unfiltered: a result, with as many rows as there are
    records, in their order. *)
Theorem extractor_without_type_field (doc : Soup.Document)
    (attempt max_retries : Z) :
  data_rows doc <> [] ->
  (forall r, In r (data_rows doc) -> Py.dict_get r "Typ instrumentu" = None) ->
  let rows := data_rows doc in
  process_document doc attempt max_retries
  = Ret (Return (Some (DataFrame_of rows)))
  /\ len (DataFrame_of rows) = List.length rows
  /\ map snd (body (DataFrame_of rows))
     = map (frame_row (columns (DataFrame_of rows))) rows
  /\ map fst (body (DataFrame_of rows)) = seq 0 (List.length rows).
Proof.
  intros Hne Hnone rows.
  assert (Habs : existsb (has_field "Typ instrumentu") rows = false).
  { apply not_true_is_false. intros H.
    apply existsb_exists in H as (r & Hr & Hf).
    unfold has_field in Hf. now rewrite (Hnone r Hr) in Hf. }
  split; [|split; [|split]].
  - rewrite (process_document_rows doc attempt max_retries Hne).
    fold rows. now rewrite (filter_instrument_absent rows Habs).
  - apply frame_len.
  - apply frame_values.
  - apply frame_index.
Qed.

Lemma extractor_without_type_field_witness :
  process_document sample_page_without_type 0 3
  = Ret (Return (Some (DataFrame_of (data_rows sample_page_without_type))))
  /\ len (DataFrame_of (data_rows sample_page_without_type)) = 2%nat.
Proof.
  assert (Hne : data_rows sample_page_without_type <> []) by discriminate.
  assert (Hnone : forall r, In r (data_rows sample_page_without_type) ->
                            Py.dict_get r "Typ instrumentu" = None).
  { intros r [<-|[<-|[]]]; reflexivity. }
  destruct (extractor_without_type_field sample_page_without_type 0 3 Hne Hnone)
    as (Hrun & Hlen & _).
  split; [exact Hrun | exact Hlen].
Defined.

(** ** One attempt *)

Lemma process_document_returns doc attempt max_retries :
  exists flow, process_document doc attempt max_retries = Ret flow.
Proof.
  unfold process_document.
  destruct (Soup.find_rdn doc) as [table|].
  - destruct (rows_of table) as [|r rows] eqn:E; [eauto|].
    destruct (existsb (has_field "Typ instrumentu") (r :: rows)) eqn:Hc.
    + rewrite (filter_instrument_present _ Hc). simpl. eauto.
    + rewrite (filter_instrument_absent _ Hc). simpl. eauto.
  - destruct (attempt <? max_retries - 1)%Z; eauto.
Qed.

Lemma attempt_body_run url max_retries attempt w :
  attempt_body url max_retries attempt w
  = (Ret (attempt_flow (network w (requests w)) max_retries attempt),
     after_attempt url attempt w).
Proof.
  unfold attempt_body, try_except, bind, after_attempt, attempt_events.
  assert (Hsleep :
    (if (attempt >? 0)%Z then time_sleep (2 ^ attempt) else ret tt) w
    = (Ret tt, mkWorld (date_env w) (network w) (requests w)
                 (trace w ++ (if (attempt >? 0)%Z
                              then [EvSleep (2 ^ attempt)] else [])))).
  { destruct (attempt >? 0)%Z; unfold time_sleep, emit, ret.
    - reflexivity.
    - rewrite app_nil_r. now destruct w. }
  rewrite Hsleep. unfold session_get. cbn [network requests trace date_env].
  rewrite <- app_assoc. unfold attempt_flow.
  destruct (network w (requests w)) as [|response] eqn:Hr.
  - cbn [is_RequestException]. unfold on_RequestException.
    now destruct (attempt =? max_retries - 1)%Z.
  - unfold raise_for_status. cbn [transport_failure].
    destruct ((400 <=? status_code response) && (status_code response <? 600))%Z.
    + cbn [raise is_RequestException]. unfold on_RequestException.
      now destruct (attempt =? max_retries - 1)%Z.
    + cbn [ret]. unfold BeautifulSoup.
      destruct (content response) as [|soup].
      * reflexivity.
      * cbn [ret]. unfold lift.
        destruct (process_document soup attempt max_retries) as [flow|e].
        -- reflexivity.
        -- destruct (is_RequestException e); [|reflexivity].
           unfold on_RequestException.
           now destruct (attempt =? max_retries - 1)%Z.
Qed.

Lemma attempt_flow_transport_failure r max_retries attempt :
  transport_failure r = true ->
  attempt_flow r max_retries attempt = on_RequestException max_retries attempt.
Proof.
  intros H. unfold attempt_flow. destruct r; [reflexivity|]. now rewrite H.
Qed.

Lemma attempt_flow_page r doc max_retries attempt :
  page_of r = Some doc ->
  Ret (attempt_flow r max_retries attempt)
  = process_document doc attempt max_retries.
Proof.
  unfold page_of, attempt_flow. destruct r as [|response]; [discriminate|].
  destruct (transport_failure (Answers response)); [discriminate|].
  destruct (content response) as [|soup]; [discriminate|].
  intros [= ->].
  destruct (process_document_returns doc attempt max_retries) as [flow ->].
  reflexivity.
Qed.

Lemma attempt_flow_table_missing r max_retries attempt :
  table_missing r = true ->
  attempt_flow r max_retries attempt
  = if (attempt <? max_retries - 1)%Z then Continue else Return None.
Proof.
  unfold table_missing. destruct (page_of r) as [doc|] eqn:Hp; [|discriminate].
  intros H. pose proof (attempt_flow_page r doc max_retries attempt Hp) as E.
  unfold process_document in E.
  destruct (Soup.find_rdn doc); [discriminate|].
  destruct (attempt <? max_retries - 1)%Z; congruence.
Qed.

Lemma attempt_flow_no_rows r max_retries attempt :
  no_rows r = true -> attempt_flow r max_retries attempt = Return None.
Proof.
  unfold no_rows. destruct (page_of r) as [doc|] eqn:Hp; [|discriminate].
  intros H. pose proof (attempt_flow_page r doc max_retries attempt Hp) as E.
  unfold process_document in E.
  destruct (Soup.find_rdn doc) as [table|]; [|discriminate].
  destruct (rows_of table); [congruence | discriminate].
Qed.

(** ** The loop *)

Lemma for_attempts_cons url max_retries attempt rest w :
  for_attempts url max_retries (attempt :: rest) w
  = match attempt_flow (network w (requests w)) max_retries attempt with
    | Return result => (Ret result, after_attempt url attempt w)
    | Continue => for_attempts url max_retries rest (after_attempt url attempt w)
    end.
Proof.
  cbn [for_attempts]. unfold bind. rewrite attempt_body_run.
  now destruct (attempt_flow (network w (requests w)) max_retries attempt).
Qed.

(** The loop goes through some first attempts of its list, one request each,
    and returns: no exception leaves it. *)
Lemma for_attempts_run url max_retries (attempts : list Z) : forall w,
  exists n result,
    (n <= List.length attempts)%nat
    /\ (attempts <> [] -> 1 <= n)%nat
    /\ for_attempts url max_retries attempts w
       = (Ret result,
          mkWorld (date_env w) (network w) (requests w + n)
            (trace w ++ flat_map (attempt_events url) (firstn n attempts))).
Proof.
  induction attempts as [|a rest IH]; intros w.
  - exists 0%nat, None. split; [lia|]. split; [congruence|]. cbn. unfold ret.
    rewrite Nat.add_0_r, app_nil_r. now destruct w.
  - rewrite for_attempts_cons.
    destruct (attempt_flow (network w (requests w)) max_retries a) as [|result].
    + destruct (IH (after_attempt url a w)) as (n & result & Hn & _ & Hrun).
      exists (S n), result. split; [simpl; lia|]. split; [lia|]. rewrite Hrun.
      unfold after_attempt. cbn [date_env network requests trace firstn flat_map].
      rewrite <- app_assoc. do 2 f_equal. lia.
    + exists 1%nat, result. split; [simpl; lia|]. split; [lia|].
      unfold after_attempt. cbn [firstn flat_map]. rewrite app_nil_r.
      do 2 f_equal. lia.
Qed.

(** Attempts that end in [Continue] are gone through one after the other. *)
Lemma for_attempts_skip url max_retries rest : forall k i w,
  (forall j, (j < k)%nat ->
     attempt_flow (reply_at w j) max_retries (Z.of_nat (i + j)) = Continue) ->
  for_attempts url max_retries (map Z.of_nat (seq i k) ++ rest) w
  = for_attempts url max_retries rest
      (mkWorld (date_env w) (network w) (requests w + k)
         (trace w ++ flat_map (attempt_events url) (map Z.of_nat (seq i k)))).
Proof.
  induction k as [|k IH]; intros i w H.
  - cbn. rewrite Nat.add_0_r, app_nil_r. now destruct w.
  - cbn [seq map app]. rewrite for_attempts_cons.
    pose proof (H 0%nat ltac:(lia)) as H0. unfold reply_at in H0.
    rewrite !Nat.add_0_r in H0. rewrite H0.
    rewrite IH.
    + unfold after_attempt. cbn [date_env network requests trace flat_map].
      rewrite <- app_assoc. do 2 f_equal. lia.
    + intros j Hj. specialize (H (S j) ltac:(lia)).
      unfold reply_at, after_attempt in *. cbn [network requests].
      replace (S (requests w) + j)%nat with (requests w + S j)%nat by lia.
      replace (S i + j)%nat with (i + S j)%nat by lia. exact H.
Qed.

Lemma range_split (max_retries : Z) (k : nat) :
  (Z.of_nat k < max_retries)%Z ->
  Py.range max_retries
  = map Z.of_nat (seq 0 k)
    ++ Z.of_nat k :: map Z.of_nat (seq (S k) (Z.to_nat max_retries - S k)).
Proof.
  intros H. unfold Py.range.
  replace (Z.to_nat max_retries) with (k + S (Z.to_nat max_retries - S k))%nat
    at 1 by lia.
  rewrite seq_app, map_app. reflexivity.
Qed.

Lemma range_nonpositive (n : Z) : (n <= 0)%Z -> Py.range n = [].
Proof.
  intros H. unfold Py.range. now replace (Z.to_nat n) with 0%nat by lia.
Qed.

Lemma range_succ (k : nat) :
  Py.range (Z.of_nat (S k)) = Py.range (Z.of_nat k) ++ [Z.of_nat k].
Proof.
  unfold Py.range. rewrite !Nat2Z.id, seq_S, map_app. reflexivity.
Qed.

Lemma attempt_events_first url : attempt_events url 0 = [EvGet url 30].
Proof. reflexivity. Qed.

Lemma attempt_events_later url (i : nat) :
  (0 < i)%nat ->
  attempt_events url (Z.of_nat i) = [EvSleep (2 ^ Z.of_nat i); EvGet url 30].
Proof.
  intros H. unfold attempt_events.
  destruct (Z.gtb_spec (Z.of_nat i) 0); [reflexivity | lia].
Qed.

Lemma flat_map_later_attempts url k : forall i,
  (0 < i)%nat ->
  flat_map (attempt_events url) (map Z.of_nat (seq i k))
  = flat_map (fun i => [EvSleep (2 ^ Z.of_nat i); EvGet url 30]) (seq i k).
Proof.
  induction k as [|k IH]; intros i Hi; [reflexivity|].
  cbn [seq map flat_map]. rewrite attempt_events_later by exact Hi.
  rewrite IH by lia. reflexivity.
Qed.

(** The events of the attempts [0 .. k] are a request, then [k] sleeps of
    2, 4, ..., 2^k seconds, each followed by a request. *)
Lemma events_of_attempts url (k : nat) :
  flat_map (attempt_events url) (Py.range (Z.of_nat (S k)))
  = retry_events url k.
Proof.
  unfold Py.range, retry_events. rewrite Nat2Z.id.
  cbn [seq map flat_map]. rewrite attempt_events_first.
  rewrite flat_map_later_attempts by lia. reflexivity.
Qed.

Lemma retry_events_gets url k : count_gets (retry_events url k) = S k.
Proof.
  unfold retry_events, count_gets. cbn [filter List.length]. f_equal.
  generalize 1%nat. induction k as [|k IH]; intros i; [reflexivity|].
  cbn [seq flat_map app filter List.length]. f_equal. apply IH.
Qed.

Lemma retry_events_sleeps url k :
  sleeps (retry_events url k) = map (fun i => (2 ^ Z.of_nat i)%Z) (seq 1 k).
Proof.
  unfold retry_events, sleeps. cbn [flat_map app].
  generalize 1%nat. induction k as [|k IH]; intros i; [reflexivity|].
  cbn [seq flat_map app map]. f_equal. apply IH.
Qed.

(** The call up to the loop: the date is settled, the session is made. *)
Lemma scrape_tge_data_start date_str d max_retries w :
  date_or_today (date_env w) date_str = Ret d ->
  scrape_tge_data date_str max_retries w
  = for_attempts (url_of d) max_retries (Py.range max_retries)
      (mkWorld (date_env w) (network w) (requests w) (trace w ++ [EvSession])).
Proof.
  intros H. unfold scrape_tge_data, bind, lift. rewrite H. reflexivity.
Qed.

Lemma range_of_nat (n : nat) : Py.range (Z.of_nat n) = map Z.of_nat (seq 0 n).
Proof. unfold Py.range. now rewrite Nat2Z.id. Qed.

(** While the attempts end in [Continue], the call goes on to the next. *)
Lemma scrape_tge_data_skip date_str d max_retries (k : nat) w :
  date_or_today (date_env w) date_str = Ret d ->
  (Z.of_nat k <= max_retries)%Z ->
  (forall j, (j < k)%nat ->
     attempt_flow (reply_at w j) max_retries (Z.of_nat j) = Continue) ->
  scrape_tge_data date_str max_retries w
  = for_attempts (url_of d) max_retries
      (map Z.of_nat (seq k (Z.to_nat max_retries - k)))
      (after_attempts (url_of d) k w).
Proof.
  intros Hd Hk Hflow. rewrite (scrape_tge_data_start _ d _ _ Hd).
  unfold Py.range.
  replace (Z.to_nat max_retries) with (k + (Z.to_nat max_retries - k))%nat
    at 1 by lia.
  rewrite seq_app, map_app, for_attempts_skip.
  - unfold after_attempts. cbn [date_env network requests trace Nat.add].
    rewrite range_of_nat, <- app_assoc. reflexivity.
  - intros j Hj. exact (Hflow j Hj).
Qed.

(** The first attempt that ends in [Return] settles the call. *)
Lemma scrape_tge_data_decided date_str d max_retries (k : nat) result w :
  date_or_today (date_env w) date_str = Ret d ->
  (Z.of_nat k < max_retries)%Z ->
  (forall j, (j < k)%nat ->
     attempt_flow (reply_at w j) max_retries (Z.of_nat j) = Continue) ->
  attempt_flow (reply_at w k) max_retries (Z.of_nat k) = Return result ->
  scrape_tge_data date_str max_retries w
  = (Ret result, after_attempts (url_of d) (S k) w).
Proof.
  intros Hd Hk Hflow Hret.
  rewrite (scrape_tge_data_skip _ d _ k _ Hd (Z.lt_le_incl _ _ Hk) Hflow).
  replace (Z.to_nat max_retries - k)%nat
    with (S (Z.to_nat max_retries - S k)) by lia.
  cbn [seq map]. rewrite for_attempts_cons.
  unfold after_attempt, after_attempts. cbn [date_env network requests trace].
  unfold reply_at in Hret. rewrite Hret.
  rewrite range_succ, flat_map_app. cbn [flat_map].
  rewrite app_nil_r, <- app_assoc. cbn [app]. do 2 f_equal. lia.
Qed.

Lemma firstn_seq_le n : forall i m,
  (n <= m)%nat -> firstn n (seq i m) = seq i n.
Proof.
  induction n as [|n IH]; intros i m H; [reflexivity|].
  destruct m as [|m]; [lia|]. cbn [seq firstn]. f_equal. apply IH. lia.
Qed.

(** Every call that has its date returns, after some [n] attempts. *)
Lemma scrape_tge_data_run date_str d max_retries w :
  date_or_today (date_env w) date_str = Ret d ->
  exists n result,
    (n <= Z.to_nat max_retries)%nat
    /\ scrape_tge_data date_str max_retries w
       = (Ret result, after_attempts (url_of d) n w).
Proof.
  intros Hd. rewrite (scrape_tge_data_start _ d _ _ Hd).
  match goal with
  | |- context [for_attempts ?u ?m ?l ?w0] =>
      destruct (for_attempts_run u m l w0) as (n & result & Hn & _ & Hrun)
  end.
  unfold Py.range in Hn. rewrite length_map, length_seq in Hn.
  exists n, result. split; [exact Hn|]. rewrite Hrun.
  unfold after_attempts. cbn [date_env network requests trace].
  unfold Py.range at 1. rewrite firstn_map, firstn_seq_le by exact Hn.
  rewrite range_of_nat, <- app_assoc. reflexivity.
Qed.

(** ** The retry policy *)

Lemma failed_attempt_continues r max_retries (i : nat) :
  (Z.of_nat i < max_retries - 1)%Z ->
  transport_failure r || table_missing r = true ->
  attempt_flow r max_retries (Z.of_nat i) = Continue.
Proof.
  intros Hi H. apply orb_prop in H as [H|H].
  - rewrite (attempt_flow_transport_failure _ _ _ H).
    unfold on_RequestException.
    destruct (Z.eqb_spec (Z.of_nat i) (max_retries - 1)); [lia | reflexivity].
  - rewrite (attempt_flow_table_missing _ _ _ H).
    destruct (Z.ltb_spec (Z.of_nat i) (max_retries - 1)); [reflexivity | lia].
Qed.

(** C2 (retry until success).  When the first K requests fail in the
    transport (K < max_retries) and the next one brings a page from which
    the extractor gets a result, the call makes exactly K + 1 requests, with
    no sleep before the first and sleeps of 2, 4, ..., 2^K seconds before the
    others, and returns that result. *)
Theorem retry_until_success (date_str : option string) (d : string)
    (max_retries : Z) (K : nat) (w : World) (doc : Soup.Document)
    (df : DataFrame) :
  date_or_today (date_env w) date_str = Ret d ->
  (Z.of_nat K < max_retries)%Z ->
  (forall i, (i < K)%nat -> transport_failure (reply_at w i) = true) ->
  page_of (reply_at w K) = Some doc ->
  process_document doc (Z.of_nat K) max_retries = Ret (Return (Some df)) ->
  scrape_tge_data date_str max_retries w
  = (Ret (Some df),
     mkWorld (date_env w) (network w) (requests w + (K + 1))
       (trace w ++ EvSession :: retry_events (url_of d) K))
  /\ count_gets (retry_events (url_of d) K) = (K + 1)%nat
  /\ sleeps (retry_events (url_of d) K)
     = map (fun i => (2 ^ Z.of_nat i)%Z) (seq 1 K).
Proof.
  intros Hd HK Hfail Hpage Hdoc. split; [|split].
  - rewrite (scrape_tge_data_decided _ d _ K (Some df) _ Hd HK).
    + unfold after_attempts. rewrite events_of_attempts.
      do 2 f_equal. lia.
    + intros j Hj. apply failed_attempt_continues; [lia|].
      now rewrite (Hfail j Hj).
    + pose proof (attempt_flow_page _ _ max_retries (Z.of_nat K) Hpage) as E.
      rewrite Hdoc in E. congruence.
  - rewrite retry_events_gets. lia.
  - apply retry_events_sleeps.
Qed.

Lemma retry_until_success_witness :
  scrape_tge_data (Some "04-11-2026") 3 (boot sample_env net_third_time)
  = (Ret (Some sample_frame),
     mkWorld sample_env net_third_time 3
       [ EvSession;
         EvGet (url_of "04-11-2026") 30;
         EvSleep 2; EvGet (url_of "04-11-2026") 30;
         EvSleep 4; EvGet (url_of "04-11-2026") 30 ]).
Proof.
  refine (proj1 (retry_until_success (Some "04-11-2026") "04-11-2026" 3 2
                   (boot sample_env net_third_time) sample_page sample_frame
                   _ _ _ _ _)).
  - reflexivity.
  - reflexivity.
  - intros [|[|i]] Hi; [reflexivity | reflexivity | lia].
  - reflexivity.
  - reflexivity.
Defined.

(** C3 (giving up).  With [max_retries = 3] and a transport failure at every
    attempt the call makes exactly three requests, with sleeps of 2 and 4
    seconds between them, and returns [None]: it returns, no exception
    leaves it. *)
Theorem three_failures_return_None (date_str : option string) (d : string)
    (w : World) :
  date_or_today (date_env w) date_str = Ret d ->
  (forall i, (i < 3)%nat -> transport_failure (reply_at w i) = true) ->
  scrape_tge_data date_str 3 w
  = (Ret None,
     mkWorld (date_env w) (network w) (requests w + 3)
       (trace w ++ [ EvSession;
                     EvGet (url_of d) 30;
                     EvSleep 2; EvGet (url_of d) 30;
                     EvSleep 4; EvGet (url_of d) 30 ])).
Proof.
  intros Hd Hfail.
  rewrite (scrape_tge_data_decided _ d 3 2 None _ Hd).
  - reflexivity.
  - lia.
  - intros j Hj. apply failed_attempt_continues; [lia|].
    now rewrite (Hfail j ltac:(lia)).
  - now rewrite (attempt_flow_transport_failure _ _ _ (Hfail 2%nat ltac:(lia))).
Qed.

Lemma three_failures_return_None_witness :
  scrape_tge_data None 3 (boot sample_env net_down)
  = (Ret None,
     mkWorld sample_env net_down 3
       [ EvSession;
         EvGet (url_of "04-11-2026") 30;
         EvSleep 2; EvGet (url_of "04-11-2026") 30;
         EvSleep 4; EvGet (url_of "04-11-2026") 30 ]).
Proof.
  refine (three_failures_return_None None "04-11-2026"
            (boot sample_env net_down) _ _).
  - reflexivity.
  - intros i Hi. reflexivity.
Defined.

(** C10 (no attempts allowed).  With [max_retries <= 0] the loop body is
    never entered: the call makes its session, sends no request, does not
    sleep, and returns [None]. *)
Theorem no_attempt_returns_None (date_str : option string) (d : string)
    (max_retries : Z) (w : World) :
  date_or_today (date_env w) date_str = Ret d ->
  (max_retries <= 0)%Z ->
  scrape_tge_data date_str max_retries w
  = (Ret None,
     mkWorld (date_env w) (network w) (requests w) (trace w ++ [EvSession])).
Proof.
  intros Hd Hle. rewrite (scrape_tge_data_start _ d _ _ Hd).
  now rewrite (range_nonpositive _ Hle).
Qed.

Lemma no_attempt_returns_None_witness :
  scrape_tge_data (Some "04-11-2026") (-1) (boot sample_env net_third_time)
  = (Ret None, mkWorld sample_env net_third_time 0 [EvSession]).
Proof.
  refine (no_attempt_returns_None (Some "04-11-2026") "04-11-2026" (-1)
            (boot sample_env net_third_time) _ _).
  - reflexivity.
  - lia.
Defined.

(** ** Structural failures *)

(** C4, as stated, fails: a page whose table has no body is a structural
    failure, two attempts remain, and yet the call returns [None] after its
    single request. *)
Lemma no_rows_is_not_retried :
  let w := boot sample_env (fun _ => ok sample_page_no_body) in
  no_rows (reply_at w 0) = true
  /\ transport_failure (reply_at w 0) = false
  /\ (0 < 3 - 1)%Z
  /\ scrape_tge_data (Some "04-11-2026") 3 w
     = (Ret None,
        mkWorld sample_env (fun _ => ok sample_page_no_body) 1
          [EvSession; EvGet (url_of "04-11-2026") 30]).
Proof. repeat split. Qed.

(** C4, amended (structural failures).  After K attempts that failed in the
    transport or found no table, let attempt K + 1 get a page.  If the table
    is missing from it and attempts remain, the call goes on to a further
    fetch and parse (at least K + 2 attempts are made); if the table is
    missing and this was the last attempt, the call returns [None].  If the
    table is there but yields no row, the call returns [None] at once,
    whether or not attempts remain. *)
Theorem structural_failure_policy (date_str : option string) (d : string)
    (max_retries : Z) (K : nat) (w : World) :
  date_or_today (date_env w) date_str = Ret d ->
  (Z.of_nat K < max_retries)%Z ->
  (forall i, (i < K)%nat ->
     transport_failure (reply_at w i) || table_missing (reply_at w i) = true) ->
  (table_missing (reply_at w K) = true -> (Z.of_nat K < max_retries - 1)%Z ->
   exists n result,
     (K + 2 <= n)%nat
     /\ scrape_tge_data date_str max_retries w
        = (Ret result, after_attempts (url_of d) n w))
  /\ (table_missing (reply_at w K) = true -> Z.of_nat K = (max_retries - 1)%Z ->
      scrape_tge_data date_str max_retries w
      = (Ret None, after_attempts (url_of d) (K + 1) w))
  /\ (no_rows (reply_at w K) = true ->
      scrape_tge_data date_str max_retries w
      = (Ret None, after_attempts (url_of d) (K + 1) w)).
Proof.
  intros Hd HK Hprior.
  assert (Hskip : forall j, (j < K)%nat ->
            attempt_flow (reply_at w j) max_retries (Z.of_nat j) = Continue).
  { intros j Hj. apply failed_attempt_continues; [lia | auto]. }
  split; [|split].
  - intros Hmiss Hleft.
    assert (HSK : (Z.of_nat (S K) <= max_retries)%Z) by lia.
    assert (Hskip' : forall j, (j < S K)%nat ->
              attempt_flow (reply_at w j) max_retries (Z.of_nat j) = Continue).
    { intros j Hj. destruct (Nat.eq_dec j K) as [->|Hne].
      - apply failed_attempt_continues; [lia|]. rewrite Hmiss. apply orb_true_r.
      - apply Hskip. lia. }
    pose proof (scrape_tge_data_skip _ d _ (S K) _ Hd HSK Hskip') as Hgo.
    match type of Hgo with
    | _ = for_attempts ?u ?m ?l ?w0 =>
        destruct (for_attempts_run u m l w0) as (n & result & _ & Hn & Hrun)
    end.
    assert (Hn' : (1 <= n)%nat).
    { apply Hn. destruct (Z.to_nat max_retries - S K)%nat eqn:E;
        [lia | discriminate]. }
    rewrite Hrun in Hgo.
    destruct (scrape_tge_data_run _ d max_retries w Hd)
      as (m & result' & Hm & Hrun').
    exists m, result'. split; [|exact Hrun'].
    rewrite Hgo in Hrun'. injection Hrun' as _ Hreq _.
    unfold after_attempts in Hreq. cbn [requests] in Hreq. lia.
  - intros Hmiss Hlast.
    rewrite (scrape_tge_data_decided _ d _ K None _ Hd HK Hskip).
    + now rewrite Nat.add_1_r.
    + rewrite (attempt_flow_table_missing _ _ _ Hmiss).
      destruct (Z.ltb_spec (Z.of_nat K) (max_retries - 1)); [lia | reflexivity].
  - intros Hrows.
    rewrite (scrape_tge_data_decided _ d _ K None _ Hd HK Hskip).
    + now rewrite Nat.add_1_r.
    + apply (attempt_flow_no_rows _ _ _ Hrows).
Qed.

Lemma structural_failure_policy_witness :
  (exists n result,
     (2 <= n)%nat
     /\ scrape_tge_data (Some "04-11-2026") 3 (boot sample_env net_table_late)
        = (Ret result,
           after_attempts (url_of "04-11-2026") n
             (boot sample_env net_table_late)))
  /\ scrape_tge_data (Some "04-11-2026") 3
       (boot sample_env (fun _ => ok sample_page_no_body))
     = (Ret None,
        after_attempts (url_of "04-11-2026") 1
          (boot sample_env (fun _ => ok sample_page_no_body))).
Proof.
  split.
  - refine (proj1 (structural_failure_policy (Some "04-11-2026") "04-11-2026"
                     3 0 (boot sample_env net_table_late) _ _ _) _ _).
    + reflexivity.
    + lia.
    + intros i Hi. lia.
    + reflexivity.
    + lia.
  - refine (proj2 (proj2 (structural_failure_policy (Some "04-11-2026")
                            "04-11-2026" 3 0
                            (boot sample_env (fun _ => ok sample_page_no_body))
                            _ _ _)) _).
    + reflexivity.
    + lia.
    + intros i Hi. lia.
    + reflexivity.
Defined.

(** ** The session *)

Lemma attempt_events_kinds url (attempts : list Z) e :
  In e (flat_map (attempt_events url) attempts) ->
  (exists s, e = EvSleep s) \/ e = EvGet url 30.
Proof.
  rewrite in_flat_map. intros (a & _ & H). unfold attempt_events in H.
  apply in_app_or in H as [H|[H|[]]]; [|now right].
  destruct (a >? 0)%Z; [|destruct H].
  destruct H as [H|[]]. left. eauto.
Qed.

Lemma attempt_events_no_session url (attempts : list Z) :
  ~ In EvClose (flat_map (attempt_events url) attempts)
  /\ ~ In EvSession (flat_map (attempt_events url) attempts).
Proof.
  split; intros H; apply attempt_events_kinds in H as [[s H]|H];
    discriminate H.
Qed.

(** C7, as stated, fails: on the path of success the call has made a session
    and sent its request, and has not closed the session when it returns. *)
Lemma session_left_open :
  let run := scrape_tge_data (Some "04-11-2026") 3
               (boot sample_env (fun _ => ok sample_page)) in
  fst run = Ret (Some sample_frame)
  /\ trace (snd run) = [EvSession; EvGet (url_of "04-11-2026") 30]
  /\ ~ In EvClose (trace (snd run)).
Proof.
  split; [reflexivity|]. split; [reflexivity|].
  intros [H|[H|[]]]; discriminate H.
Qed.

(** C7, amended (the session).  On every path of [scrape_tge_data] that gets
    its date (success, retries used up, structural failure, exception while
    parsing) the call returns after having made one session at its start
    and sent every request of the invocation through it; on no path, with or
    without date, does the call close a session: releasing it is left to the
    run time. *)
Theorem session_is_never_closed (date_str : option string) (max_retries : Z)
    (w : World) :
  exists events,
    trace (snd (scrape_tge_data date_str max_retries w)) = trace w ++ events
    /\ ~ In EvClose events
    /\ forall d, date_or_today (date_env w) date_str = Ret d ->
         exists n result rest,
           (n <= Z.to_nat max_retries)%nat
           /\ scrape_tge_data date_str max_retries w
              = (Ret result, after_attempts (url_of d) n w)
           /\ events = EvSession :: rest
           /\ ~ In EvSession rest
           /\ count_gets rest = n.
Proof.
  destruct (date_or_today (date_env w) date_str) as [d|e] eqn:Hd.
  - destruct (scrape_tge_data_run _ d max_retries w Hd) as (n & result & Hn & Hrun).
    exists (EvSession :: flat_map (attempt_events (url_of d)) (Py.range (Z.of_nat n))).
    rewrite Hrun. split; [reflexivity|].
    destruct (attempt_events_no_session (url_of d) (Py.range (Z.of_nat n)))
      as [Hc Hs].
    split.
    + intros [H|H]; [discriminate H | exact (Hc H)].
    + intros d' [= <-]. exists n, result, (flat_map (attempt_events (url_of d)) (Py.range (Z.of_nat n))).
      repeat split; auto.
      clear. destruct n as [|k]; [reflexivity|].
      rewrite events_of_attempts. apply retry_events_gets.
  - exists []. unfold scrape_tge_data, bind, lift. rewrite Hd. cbn [snd].
    rewrite app_nil_r. split; [reflexivity|]. split; [intros []|].
    intros d' H. discriminate H.
Qed.

Lemma session_is_never_closed_witness :
  exists events,
    trace (snd (scrape_tge_data None 3 (boot sample_env net_third_time)))
    = events
    /\ ~ In EvClose events.
Proof.
  destruct (session_is_never_closed None 3 (boot sample_env net_third_time))
    as (events & Htrace & Hclose & _).
  exists events. split; [exact Htrace | exact Hclose].
Defined.

(** ** The date *)

Module DatetimeFacts.

Import Datetime.
Local Open Scope Z_scope.

Lemma valid_date_iff y m d :
  valid_date y m d = true
  <-> 1 <= y <= 9999 /\ 1 <= m <= 12 /\ 1 <= d <= days_in_month y m.
Proof.
  unfold valid_date, MINYEAR, MAXYEAR.
  rewrite !andb_true_iff, !Z.leb_le. tauto.
Qed.

Lemma valid_time_iff h mi s us :
  valid_time h mi s us = true
  <-> 0 <= h < 24 /\ 0 <= mi < 60 /\ 0 <= s < 60 /\ 0 <= us < 1000000.
Proof.
  unfold valid_time. rewrite !andb_true_iff, !Z.leb_le, !Z.ltb_lt. tauto.
Qed.

Lemma days_in_month_bounds y m : 28 <= days_in_month y m <= 31.
Proof.
  unfold days_in_month.
  destruct (m =? 2); [destruct (isleap y); lia|].
  destruct ((m =? 4) || (m =? 6) || (m =? 9) || (m =? 11)); lia.
Qed.

Lemma days_in_december y : days_in_month y 12 = 31.
Proof. reflexivity. Qed.

(** The day after a date of the calendar is a date of the calendar, in the
    same year unless the date is the 31st of December. *)
Lemma next_day_valid y m d :
  valid_date y m d = true ->
  let '(y', m', d') := next_day (y, m, d) in
  (y' = y /\ valid_date y' m' d' = true)
  \/ (m = 12 /\ d = 31 /\ y' = y + 1 /\ m' = 1 /\ d' = 1).
Proof.
  intros H. apply valid_date_iff in H as (Hy & Hm & Hd).
  unfold next_day.
  destruct (Z.ltb_spec d (days_in_month y m)).
  - left. split; [reflexivity|]. apply valid_date_iff. lia.
  - destruct (Z.ltb_spec m 12).
    + left. split; [reflexivity|]. apply valid_date_iff.
      pose proof (days_in_month_bounds y (m + 1)). lia.
    + right. assert (m = 12) by lia. subst m.
      rewrite days_in_december in *. lia.
Qed.

Lemma digit_spec k :
  0 <= k <= 9 -> is_digit (digit k) = true /\ digit_val (digit k) = k.
Proof.
  intros H.
  assert (E : k = 0 \/ k = 1 \/ k = 2 \/ k = 3 \/ k = 4 \/ k = 5
              \/ k = 6 \/ k = 7 \/ k = 8 \/ k = 9) by lia.
  repeat (destruct E as [->|E]; [split; reflexivity|]).
  subst k. split; reflexivity.
Qed.

Lemma year_formats_checked :
  forallb year_formats_agree
    (map Z.of_nat (seq (Z.to_nat 1000) (Z.to_nat 9000))) = true.
Proof. vm_compute. reflexivity. Qed.

(** From the year 1000 on, [%Y] gives the four digits of the year on every
    platform. *)
Lemma format_year_four_digits padded y :
  1000 <= y <= 9999 -> format_year padded y = pad4 y.
Proof.
  intros Hy. destruct padded; [reflexivity|].
  pose proof (proj1 (forallb_forall _ _) year_formats_checked y) as H.
  assert (Hin : In y (map Z.of_nat (seq (Z.to_nat 1000) (Z.to_nat 9000)))).
  { apply in_map_iff. exists (Z.to_nat y). split; [lia|]. apply in_seq. lia. }
  specialize (H Hin). unfold year_formats_agree in H.
  now apply String.eqb_eq in H.
Qed.

(** [strftime("%d-%m-%Y")] of a [datetime] is a date in the form
    DD-MM-YYYY when the year is padded or has four digits. *)
Lemma strftime_dmY_form padded t :
  valid t = true -> padded || (1000 <=? year t) = true ->
  is_dd_mm_yyyy (strftime_dmY padded t) = true.
Proof.
  unfold valid. intros H Hfour. apply andb_prop in H as [Hdate _].
  pose proof Hdate as Hd. apply valid_date_iff in Hd as (Hy & Hm & Hday).
  pose proof (days_in_month_bounds (year t) (month t)) as Hdim.
  assert (Hfmt : format_year padded (year t) = pad4 (year t)).
  { destruct padded; [reflexivity|]. cbn [orb] in Hfour.
    apply Z.leb_le in Hfour. apply format_year_four_digits. lia. }
  unfold is_dd_mm_yyyy, strftime_dmY. rewrite Hfmt. unfold pad2, pad4.
  cbn [String.append list_ascii_of_string forallb].
  destruct (digit_spec (day t / 10)) as [D1 V1];
    [Z.div_mod_to_equations; lia|].
  destruct (digit_spec (day t mod 10)) as [D2 V2];
    [Z.div_mod_to_equations; lia|].
  destruct (digit_spec (month t / 10)) as [D3 V3];
    [Z.div_mod_to_equations; lia|].
  destruct (digit_spec (month t mod 10)) as [D4 V4];
    [Z.div_mod_to_equations; lia|].
  destruct (digit_spec (year t / 1000)) as [D5 V5];
    [Z.div_mod_to_equations; lia|].
  destruct (digit_spec ((year t / 100) mod 10)) as [D6 V6];
    [Z.div_mod_to_equations; lia|].
  destruct (digit_spec ((year t / 10) mod 10)) as [D7 V7];
    [Z.div_mod_to_equations; lia|].
  destruct (digit_spec (year t mod 10)) as [D8 V8];
    [Z.div_mod_to_equations; lia|].
  rewrite D1, D2, D3, D4, D5, D6, D7, D8, V1, V2, V3, V4, V5, V6, V7, V8.
  cbn [andb Ascii.eqb Bool.eqb].
  replace (1000 * (year t / 1000) + 100 * (year t / 100 mod 10)
           + 10 * (year t / 10 mod 10) + year t mod 10) with (year t)
    by (Z.div_mod_to_equations; lia).
  replace (10 * (month t / 10) + month t mod 10) with (month t)
    by (Z.div_mod_to_equations; lia).
  replace (10 * (day t / 10) + day t mod 10) with (day t)
    by (Z.div_mod_to_equations; lia).
  exact Hdate.
Qed.

End DatetimeFacts.

Module PolishDate.

Import Datetime DatetimeFacts.
Local Open Scope Z_scope.

(** In every year of the calendar, [max(week[-1] ...)] finds the last
    Sunday of March and of October: checked year by year. *)
Lemma last_sundays_checked :
  forallb last_sundays_found (map Z.of_nat (seq 1 (Z.to_nat 9999))) = true.
Proof. vm_compute. reflexivity. Qed.

Lemma last_sundays y :
  1 <= y <= 9999 ->
  exists a b,
    last_sunday y 3 = Ret a /\ last_sunday y 10 = Ret b
    /\ is_last_sunday y 3 a = true /\ is_last_sunday y 10 b = true.
Proof.
  intros Hy.
  pose proof (proj1 (forallb_forall _ _) last_sundays_checked y) as H.
  assert (Hin : In y (map Z.of_nat (seq 1 (Z.to_nat 9999)))).
  { apply in_map_iff. exists (Z.to_nat y). split; [lia|].
    apply in_seq. lia. }
  specialize (H Hin). unfold last_sundays_found in H.
  destruct (last_sunday y 3) as [a|]; [|discriminate].
  destruct (last_sunday y 10) as [b|]; [|discriminate].
  apply andb_prop in H as [Ha Hb]. exists a, b. auto.
Qed.

Lemma is_last_sunday_valid y m d :
  is_last_sunday y m d = true -> valid_date y m d = true.
Proof.
  unfold is_last_sunday. intros H.
  apply andb_prop in H as [H _]. now apply andb_prop in H as [H _].
Qed.

(** Adding less than a day to a [datetime] gives a [datetime], unless the
    sum passes the end of the year [MAXYEAR]. *)
Lemma add_hours_valid t h :
  valid t = true -> 0 <= h -> hour t + h < 48 ->
  (24 <= hour t + h -> ~ (year t = 9999 /\ month t = 12 /\ day t = 31)) ->
  exists t', add_hours t h = Ret t' /\ valid t' = true.
Proof.
  unfold valid. intros Hv Hh Hlt Hend.
  apply andb_prop in Hv as [Hdate Htime].
  pose proof Hdate as Hd. apply valid_date_iff in Hd as (Hy & Hm & Hday).
  apply valid_time_iff in Htime as (Hhr & Hmi & Hs & Hus).
  unfold add_hours.
  destruct (Z.lt_ge_cases (hour t + h) 24) as [Hsmall|Hbig].
  - rewrite Z.div_small, Z.mod_small by lia. cbn [Z.to_nat Nat.iter nat_rect].
    destruct (Z.gtb_spec (year t) MAXYEAR) as [Hgt|_];
      [unfold MAXYEAR in Hgt; lia|].
    eexists. split; [reflexivity|]. cbn. rewrite Hdate. cbn [andb].
    apply valid_time_iff. lia.
  - assert (Hq : (hour t + h) / 24 = 1) by (Z.div_mod_to_equations; lia).
    rewrite Hq. change (Z.to_nat 1) with 1%nat. cbn [Nat.iter nat_rect].
    pose proof (next_day_valid _ _ _ Hdate) as Hnext.
    destruct (next_day (year t, month t, day t)) as [[y' m'] d'].
    destruct Hnext as [[-> Hv']|(Hm12 & Hd31 & -> & -> & ->)].
    + destruct (Z.gtb_spec (year t) MAXYEAR) as [Hgt|_];
        [unfold MAXYEAR in Hgt; lia|].
      eexists. split; [reflexivity|]. cbn. rewrite Hv'. cbn [andb].
      apply valid_time_iff. Z.div_mod_to_equations. lia.
    + assert (Hyear : year t <> 9999) by (specialize (Hend Hbig); tauto).
      destruct (Z.gtb_spec (year t + 1) MAXYEAR) as [Hgt|_];
        [unfold MAXYEAR in Hgt; lia|].
      eexists. split; [reflexivity|]. cbn.
      apply andb_true_intro. split.
      * apply valid_date_iff. cbn. lia.
      * apply valid_time_iff. Z.div_mod_to_equations. lia.
Qed.

Lemma before_october_end t b :
  ltb t (mkDatetime (year t) 10 b 1 0 0 0) = true -> month t <= 10.
Proof.
  unfold ltb, fields. cbn [lex_compare year month].
  rewrite Z.compare_refl.
  destruct (Z.compare_spec (month t) 10); [lia | lia | discriminate].
Qed.

(** The computation from the UTC clock gives a [datetime], except in the
    last hour before the year 10000. *)
Lemma manual_polish_time_valid t :
  valid t = true -> last_hour_of_time t = false ->
  exists t', manual_polish_time t = Ret t' /\ valid t' = true.
Proof.
  intros Hv Hlast. pose proof Hv as Hv0. unfold valid in Hv0.
  apply andb_prop in Hv0 as [Hdate Htime].
  apply valid_date_iff in Hdate as (Hy & Hm & Hday).
  apply valid_time_iff in Htime as (Hhr & _).
  destruct (last_sundays (year t) Hy) as (a & b & Ha & Hb & Hsa & Hsb).
  apply is_last_sunday_valid in Hsa, Hsb.
  unfold manual_polish_time. rewrite Ha, Hb. cbn [obind].
  unfold make. rewrite Hsa, Hsb.
  change (valid_time 1 0 0 0) with true. cbn [andb obind].
  match goal with
  | |- context [if ?c then 2 else 1] => destruct c eqn:Hdst
  end.
  - apply andb_prop in Hdst as [_ Hbefore].
    apply before_october_end in Hbefore.
    apply add_hours_valid; [exact Hv | lia | lia | lia].
  - apply add_hours_valid; [exact Hv | lia | lia |].
    intros Hbig (Hy9 & Hm12 & Hd31).
    unfold last_hour_of_time, MAXYEAR in Hlast.
    rewrite Hy9, Hm12, Hd31 in Hlast. cbn [Z.eqb Pos.eqb andb] in Hlast.
    apply Z.eqb_neq in Hlast. lia.
Qed.

End PolishDate.

Lemma manual_polish_time_offset (t : Datetime.datetime) :
  Datetime.valid t = true ->
  exists offset,
    (offset = 1 \/ offset = 2)%Z
    /\ manual_polish_time t = Datetime.add_hours t offset.
Proof.
  intros Hv. unfold Datetime.valid in Hv. apply andb_prop in Hv as [Hdate _].
  apply DatetimeFacts.valid_date_iff in Hdate as (Hy & _).
  destruct (PolishDate.last_sundays (Datetime.year t) Hy)
    as (a & b & Ha & Hb & Hsa & Hsb).
  apply PolishDate.is_last_sunday_valid in Hsa, Hsb.
  unfold manual_polish_time. rewrite Ha, Hb. cbn [obind].
  unfold Datetime.make. rewrite Hsa, Hsb.
  change (Datetime.valid_time 1 0 0 0) with true. cbn [andb obind].
  match goal with
  | |- context [if ?c then 2%Z else 1%Z] => destruct c
  end; eauto.
Qed.

Lemma add_hours_year (t t' : Datetime.datetime) (h : Z) :
  Datetime.valid t = true -> (0 <= h)%Z -> (Datetime.hour t + h < 48)%Z ->
  Datetime.add_hours t h = Ret t' ->
  (Datetime.year t <= Datetime.year t')%Z.
Proof.
  unfold Datetime.valid. intros Hv Hh Hlt.
  apply andb_prop in Hv as [Hdate Htime].
  apply DatetimeFacts.valid_time_iff in Htime as (Hhr & _).
  unfold Datetime.add_hours.
  destruct (Z.lt_ge_cases (Datetime.hour t + h) 24) as [Hsmall|Hbig].
  - rewrite Z.div_small by lia. cbn [Z.to_nat Nat.iter nat_rect].
    destruct (Datetime.year t >? Datetime.MAXYEAR)%Z; [discriminate|].
    intros [= <-]. cbn. lia.
  - assert (Hq : ((Datetime.hour t + h) / 24 = 1)%Z)
      by (Z.div_mod_to_equations; lia).
    rewrite Hq. change (Z.to_nat 1) with 1%nat. cbn [Nat.iter nat_rect].
    pose proof (DatetimeFacts.next_day_valid _ _ _ Hdate) as Hnext.
    destruct (Datetime.next_day
                (Datetime.year t, Datetime.month t, Datetime.day t))
      as [[y' m'] d'].
    destruct (y' >? Datetime.MAXYEAR)%Z; [discriminate|].
    intros [= <-]. cbn.
    destruct Hnext as [[-> _]|(_ & _ & -> & _)]; lia.
Qed.

Lemma manual_polish_time_year (t t' : Datetime.datetime) :
  Datetime.valid t = true -> manual_polish_time t = Ret t' ->
  (Datetime.year t <= Datetime.year t')%Z.
Proof.
  intros Hv Hrun.
  destruct (manual_polish_time_offset t Hv) as (offset & Hoff & E).
  rewrite E in Hrun. pose proof Hv as Hv'. unfold Datetime.valid in Hv'.
  apply andb_prop in Hv' as [_ Htime].
  apply DatetimeFacts.valid_time_iff in Htime as (Hhr & _).
  apply (add_hours_year t t' offset Hv); [lia | lia | exact Hrun].
Qed.

(** The computation from the clock at work: winter time, summer time, and
    the night in which summer time begins (29 March 2026, 01:00 UTC). *)
Example polish_date_in_winter :
  get_polish_date (mkDateEnv false (Raise ImportError) (Raise ImportError)
                     (Datetime.mkDatetime 2026 1 15 23 30 0 0))
  = Ret "16-01-2026".
Proof. vm_compute. reflexivity. Qed.

Example polish_date_in_summer :
  get_polish_date (mkDateEnv false (Raise ImportError) (Raise ImportError)
                     (Datetime.mkDatetime 2026 6 30 22 30 0 0))
  = Ret "01-07-2026".
Proof. vm_compute. reflexivity. Qed.

Example polish_offset_at_the_change :
  manual_polish_time (Datetime.mkDatetime 2026 3 29 0 59 59 0)
  = Ret (Datetime.mkDatetime 2026 3 29 1 59 59 0)
  /\ manual_polish_time (Datetime.mkDatetime 2026 3 29 1 0 0 0)
     = Ret (Datetime.mkDatetime 2026 3 29 3 0 0 0).
Proof. split; vm_compute; reflexivity. Qed.


(** The inner [try] catches [ImportError] only: what else the second library
    raises leaves [get_polish_date]. *)
Lemma get_polish_date_second_library_raises padded t e :
  e <> ImportError ->
  get_polish_date (mkDateEnv padded (Raise OtherException) (Raise e) t)
  = Raise e.
Proof.
  intros He. unfold get_polish_date. cbn [zoneinfo_now pytz_now].
  destruct e; try reflexivity. congruence.
Qed.

(** With a C library that does not pad the year, a year below 1000 is
    written on fewer than four digits. *)
Lemma get_polish_date_short_year :
  let env := mkDateEnv false (Raise ImportError) (Raise ImportError)
               (Datetime.mkDatetime 999 1 1 12 0 0 0) in
  Datetime.valid (utcnow env) = true
  /\ get_polish_date env = Ret "01-01-999"
  /\ Datetime.is_dd_mm_yyyy "01-01-999" = false.
Proof. repeat split; vm_compute; reflexivity. Qed.




(** * Further properties *)

(** ** Records *)

Lemma row_dict_of_fold cells :
  row_dict_of cells = fold_left set_cell (Py.enumerate cells) [].
Proof. reflexivity. Qed.

Lemma enumerate_from_In {A} (l : list A) : forall i k x,
  In (k, x) (Py.enumerate_from i l) ->
  (i <= k)%nat /\ nth_error l (k - i) = Some x.
Proof.
  induction l as [|y l IH]; intros i k x H; [destruct H|].
  destruct H as [H|H].
  - injection H as <- <-. rewrite Nat.sub_diag. split; [lia | reflexivity].
  - apply IH in H as [Hle Hnth]. split; [lia|].
    replace (k - i)%nat with (S (k - S i)) by lia. exact Hnth.
Qed.

Lemma enumerate_from_split {A} (l : list A) : forall i j x,
  nth_error l j = Some x ->
  Py.enumerate_from i l
  = Py.enumerate_from i (firstn j l)
    ++ (i + j, x)%nat :: Py.enumerate_from (S (i + j)) (skipn (S j) l).
Proof.
  induction l as [|y l IH]; intros i j x H; [destruct j; discriminate|].
  destruct j as [|j].
  - injection H as ->. cbn. now rewrite Nat.add_0_r.
  - cbn [firstn skipn Py.enumerate_from app]. f_equal.
    rewrite (IH (S i) j x H). now rewrite <- plus_n_Sm.
Qed.

Lemma fold_set_cell_keeps (later : list (nat * Soup.Tag)) :
  forall (acc : Record_) name v,
    Py.dict_get acc name = Some v ->
    (forall k c, In (k, c) later -> col_name k c <> name) ->
    Py.dict_get (fold_left set_cell later acc) name = Some v.
Proof.
  induction later as [|[k c] later IH]; intros acc name v Hget Hno;
    [exact Hget|].
  cbn [fold_left set_cell]. apply IH.
  - rewrite dict_get_set_other; [exact Hget|].
    intros E. apply (Hno k c); [now left | now symmetry].
  - intros k' c' Hin. apply Hno. now right.
Qed.

Lemma dict_set_fresh {V} (d : Py.dict V) k v :
  ~ In k (Py.keys d) -> Py.dict_set d k v = d ++ [(k, v)].
Proof.
  unfold Py.keys. induction d as [|[k0 v0] d IH]; intros H; [reflexivity|].
  cbn in *. destruct (String.eqb_spec k0 k) as [->|Hne]; [tauto|].
  f_equal. apply IH. tauto.
Qed.

Lemma fold_set_cell_fresh (entries : list (nat * Soup.Tag)) :
  forall acc : Record_,
    NoDup (Py.keys acc ++ map fst (map field_of entries)) ->
    fold_left set_cell entries acc = acc ++ map field_of entries.
Proof.
  induction entries as [|[i c] entries IH]; intros acc H.
  - cbn. now rewrite app_nil_r.
  - cbn [fold_left set_cell map field_of fst] in *.
    pose proof (NoDup_remove_2 _ _ _ H) as Hfresh.
    rewrite dict_set_fresh by (intros Hin; apply Hfresh, in_or_app; now left).
    rewrite IH.
    + now rewrite <- app_assoc.
    + unfold Py.keys in *. rewrite map_app, <- app_assoc. exact H.
Qed.

(** X1.  In a row, the field of a name holds the text of the last cell that
    has this name: a later cell with the same name overwrites an earlier
    one. *)
Theorem row_field_is_last_cell (cells : Soup.Tr) (j : nat) (c : Soup.Tag) :
  nth_error cells j = Some c ->
  (forall k c', (j < k)%nat -> nth_error cells k = Some c' ->
                col_name k c' <> col_name j c) ->
  Py.dict_get (row_dict_of cells) (col_name j c)
  = Some (Soup.get_text_strip c).
Proof.
  intros Hj Hlater. rewrite row_dict_of_fold. unfold Py.enumerate.
  rewrite (enumerate_from_split cells 0 j c Hj), fold_left_app.
  cbn [fold_left Nat.add set_cell]. apply fold_set_cell_keeps.
  - apply dict_get_set_same.
  - intros k c' Hin. apply enumerate_from_In in Hin as [Hle Hnth].
    rewrite nth_error_skipn in Hnth. apply Hlater; [lia|].
    now replace (S j + (k - S j))%nat with k in Hnth by lia.
Qed.

Lemma row_field_is_last_cell_witness :
  Py.dict_get
    (row_dict_of [td_titled "Kurs" "449,00"; td "60"; td_titled "Kurs" "451,20"])
    "Kurs"
  = Some "451,20".
Proof.
  refine (row_field_is_last_cell
            [td_titled "Kurs" "449,00"; td "60"; td_titled "Kurs" "451,20"]
            2 (td_titled "Kurs" "451,20") _ _).
  - reflexivity.
  - intros [|[|[|k]]] c' Hk H; try lia; destruct k; discriminate H.
Defined.

(** X2.  When the cells of a row have pairwise different names the record of
    the row lists the cells in their order, each under its name with its
    text: no cell is lost and there are as many fields as cells. *)
Theorem row_with_distinct_names (cells : Soup.Tr) :
  NoDup (map fst (map field_of (Py.enumerate cells))) ->
  row_dict_of cells = map field_of (Py.enumerate cells)
  /\ List.length (row_dict_of cells) = List.length cells.
Proof.
  intros H. rewrite row_dict_of_fold.
  rewrite (fold_set_cell_fresh (Py.enumerate cells) [] H). cbn [app].
  split; [reflexivity|].
  rewrite length_map. apply enumerate_from_length.
Qed.

Lemma row_with_distinct_names_witness :
  row_dict_of [td_titled "Kontrakt" "BASE_04-11-26"; td "60"; td "449,00"]
  = [ ("Kontrakt", "BASE_04-11-26"); ("Typ instrumentu", "60");
      ("Fixing I - Kurs [PLN/MWh]", "449,00") ].
Proof.
  refine (proj1 (row_with_distinct_names
                   [td_titled "Kontrakt" "BASE_04-11-26"; td "60"; td "449,00"]
                   _)).
  repeat constructor; cbn; intuition discriminate.
Defined.

(** ** Positional names *)

Lemma str_of_nat_inj (n m : nat) :
  Py.str_of_nat n = Py.str_of_nat m -> n = m.
Proof.
  unfold Py.str_of_nat. intros H.
  assert (E : Some (Nat.to_uint n) = Some (Nat.to_uint m)).
  { rewrite <- !NilEmpty.usu. now rewrite H. }
  injection E as E.
  rewrite <- (DecimalNat.Unsigned.of_to n), <- (DecimalNat.Unsigned.of_to m).
  now rewrite E.
Qed.

Lemma fallback_name_position (idx : nat) :
  (idx < 17)%nat ->
  position (fallback_name idx) (map snd COLUMN_MAPPING) = Some idx.
Proof.
  intros H. do 17 (destruct idx as [|idx]; [reflexivity|]). lia.
Qed.

Lemma synthetic_name_position (s : string) :
  position ("Kolumna_" ++ s) (map snd COLUMN_MAPPING) = None.
Proof. reflexivity. Qed.

Lemma fallback_name_inj (i j : nat) :
  fallback_name i = fallback_name j -> i = j.
Proof.
  intros H.
  destruct (Nat.lt_ge_cases i 17) as [Hi|Hi], (Nat.lt_ge_cases j 17) as [Hj|Hj].
  - pose proof (fallback_name_position i Hi) as Pi.
    pose proof (fallback_name_position j Hj) as Pj.
    rewrite H in Pi. congruence.
  - pose proof (fallback_name_position i Hi) as Pi.
    rewrite H, (fallback_name_synthetic j Hj), synthetic_name_position in Pi.
    discriminate Pi.
  - pose proof (fallback_name_position j Hj) as Pj.
    rewrite <- H, (fallback_name_synthetic i Hi), synthetic_name_position in Pj.
    discriminate Pj.
  - rewrite (fallback_name_synthetic i Hi), (fallback_name_synthetic j Hj) in H.
    cbn [String.append] in H. injection H as H.
    apply str_of_nat_inj in H. lia.
Qed.

Lemma unlabelled_fields (cells : Soup.Tr) : forall i,
  forallb unlabelled cells = true ->
  map field_of (Py.enumerate_from i cells)
  = map (fun '(k, c) => (fallback_name k, Soup.get_text_strip c))
      (Py.enumerate_from i cells).
Proof.
  induction cells as [|c cells IH]; intros i H; [reflexivity|].
  cbn [forallb] in H. apply andb_prop in H as [Hc Hrest].
  cbn [Py.enumerate_from map field_of]. rewrite (col_name_unlabelled i c Hc).
  f_equal. now apply IH.
Qed.

Lemma fallback_names_NoDup {A} (l : list A) : forall i,
  NoDup (map (fun '(k, _) => fallback_name k) (Py.enumerate_from i l))
  /\ forall name, In name (map (fun '(k, _) => fallback_name k)
                             (Py.enumerate_from i l)) ->
                  exists k, (i <= k)%nat /\ name = fallback_name k.
Proof.
  induction l as [|x l IH]; intros i.
  - split; [constructor | intros name []].
  - destruct (IH (S i)) as [Hnd Hin]. cbn [Py.enumerate_from map]. split.
    + constructor; [|exact Hnd].
      intros H. apply Hin in H as (k & Hk & E).
      apply fallback_name_inj in E. lia.
    + intros name [<-|H]; [exists i; split; [lia | reflexivity]|].
      apply Hin in H as (k & Hk & E). exists k. split; [lia | exact E].
Qed.

(** X3.  The positional names never collide: the 17 names of the table are
    pairwise different, no [Kolumna_n] is one of them, and different
    positions past the table get different [Kolumna_n].  So the record of a
    row of unlabelled cells, of any length, has one field per cell, in the
    order of the cells, named by position. *)
Theorem unlabelled_row_keeps_every_cell (cells : Soup.Tr) :
  forallb unlabelled cells = true ->
  row_dict_of cells
  = map (fun '(k, c) => (fallback_name k, Soup.get_text_strip c))
      (Py.enumerate cells)
  /\ List.length (row_dict_of cells) = List.length cells
  /\ forall i j, fallback_name i = fallback_name j -> i = j.
Proof.
  intros H. assert (E : row_dict_of cells = map field_of (Py.enumerate cells)).
  { rewrite row_dict_of_fold. rewrite fold_set_cell_fresh; [reflexivity|].
    cbn [Py.keys map app]. unfold Py.enumerate.
    rewrite (unlabelled_fields cells 0 H), map_map.
    destruct (fallback_names_NoDup cells 0) as [Hnd _].
    erewrite map_ext; [exact Hnd|]. now intros [k c]. }
  split; [|split].
  - rewrite E. apply (unlabelled_fields cells 0 H).
  - rewrite E, length_map. apply enumerate_from_length.
  - apply fallback_name_inj.
Qed.

Lemma unlabelled_row_keeps_every_cell_witness :
  row_dict_of [td "BASE_04-11-26"; td "60"; td "449,00"]
  = [ ("Instrument", "BASE_04-11-26"); ("Typ instrumentu", "60");
      ("Fixing I - Kurs [PLN/MWh]", "449,00") ].
Proof.
  refine (proj1 (unlabelled_row_keeps_every_cell
                   [td "BASE_04-11-26"; td "60"; td "449,00"] _)).
  reflexivity.
Defined.

(** ** Frames *)

Lemma add_key_NoDup cols k : NoDup cols -> NoDup (add_key cols k).
Proof.
  intros H. unfold add_key.
  destruct (existsb (String.eqb k) cols) eqn:E; [exact H|].
  apply NoDup_app; [exact H | repeat constructor; intros [] |].
  intros a Ha [<-|[]].
  apply existsb_eqb_In in Ha. congruence.
Qed.

Lemma fold_add_key_NoDup ks : forall cols,
  NoDup cols -> NoDup (fold_left add_key ks cols).
Proof.
  induction ks as [|k ks IH]; intros cols H; [exact H|].
  apply IH. now apply add_key_NoDup.
Qed.

Lemma frame_columns_NoDup (rows : list Record_) : NoDup (frame_columns rows).
Proof.
  unfold frame_columns. generalize (@nil string), (NoDup_nil string).
  induction rows as [|r rows IH]; intros cols H; [exact H|].
  cbn [fold_left]. apply IH. now apply fold_add_key_NoDup.
Qed.

Lemma position_absent name cols : ~ In name cols -> position name cols = None.
Proof.
  induction cols as [|c cols IH]; intros H; [reflexivity|].
  cbn in *. destruct (String.eqb_spec c name); [tauto|].
  rewrite IH; tauto.
Qed.

Lemma frame_series rows (j : nat) (name : string) :
  (forall f : string -> option string,
     nth j (map f (frame_columns rows)) None = f name) ->
  map (fun row : nat * list cell => nth j (snd row) None)
    (body (DataFrame_of rows))
  = map (fun r => Py.dict_get r name) rows.
Proof.
  intros Hnth. unfold DataFrame_of. cbn [body]. rewrite map_map.
  rewrite <- (enumerate_from_snd rows 0) at 2. rewrite map_map.
  apply map_ext. intros [i r]. cbn [snd]. unfold frame_row. apply Hnth.
Qed.

(** X4.  The frame made of a list of records is a table: its columns are the
    names of the fields of the records, each once; every row has one cell
    per column; the series of a column holds, record by record, the value of
    that field, and [NaN] where the record lacks it; asking for a name that
    is no column raises [KeyError]. *)
Theorem frame_is_a_table (rows : list Record_) :
  let df := DataFrame_of rows in
  NoDup (columns df)
  /\ (forall name, In name (columns df)
                   <-> exists r, In r rows /\ In name (Py.keys r))
  /\ (forall row, In row (body df) ->
                  List.length (snd row) = List.length (columns df))
  /\ (forall name, In name (columns df) ->
        getitem df name = Ret (map (fun r => Py.dict_get r name) rows))
  /\ (forall name, ~ In name (columns df) -> getitem df name = Raise KeyError).
Proof.
  cbn zeta. split; [apply frame_columns_NoDup|].
  split; [apply frame_columns_In|]. split; [|split].
  - unfold DataFrame_of. cbn [body columns]. intros row Hin.
    apply in_map_iff in Hin as ([i r] & <- & _). cbn [snd].
    unfold frame_row. apply length_map.
  - intros name Hin. cbn [columns DataFrame_of] in Hin.
    destruct (position_nth (B := string) _ _ Hin) as (j & Hpos & Hnth).
    unfold getitem. cbn [columns DataFrame_of]. rewrite Hpos. f_equal.
    now apply frame_series.
  - intros name Hin. unfold getitem. now rewrite position_absent.
Qed.

Lemma frame_is_a_table_witness :
  getitem (DataFrame_of [ [("Kurs", "449,00"); ("Typ", "60")];
                          [("Kurs", "512,30")] ]) "Typ"
  = Ret [Some "60"; None]
  /\ getitem (DataFrame_of [ [("Kurs", "449,00"); ("Typ", "60")];
                             [("Kurs", "512,30")] ]) "Wolumen"
     = Raise KeyError.
Proof.
  pose proof (frame_is_a_table [ [("Kurs", "449,00"); ("Typ", "60")];
                                 [("Kurs", "512,30")] ])
    as (_ & _ & _ & Hin & Hout).
  split.
  - apply (Hin "Typ"). cbn. tauto.
  - apply (Hout "Wolumen"). cbn. intuition discriminate.
Defined.

Lemma fold_add_key_known ks : forall cols,
  incl ks cols -> fold_left add_key ks cols = cols.
Proof.
  induction ks as [|k ks IH]; intros cols H; [reflexivity|].
  cbn [fold_left]. unfold add_key at 2.
  assert (Hk : existsb (String.eqb k) cols = true).
  { apply existsb_eqb_In. apply H. now left. }
  rewrite Hk. apply IH. intros x Hx. apply H. now right.
Qed.

Lemma fold_add_key_new ks : forall cols,
  NoDup (cols ++ ks) -> fold_left add_key ks cols = cols ++ ks.
Proof.
  induction ks as [|k ks IH]; intros cols H; [now rewrite app_nil_r|].
  cbn [fold_left]. unfold add_key at 2.
  assert (Hk : existsb (String.eqb k) cols = false).
  { apply not_true_is_false. intros E. apply existsb_eqb_In in E.
    apply (NoDup_remove_2 _ _ _ H). apply in_or_app. now left. }
  rewrite Hk, IH; rewrite <- app_assoc; [reflexivity | exact H].
Qed.

Lemma dict_set_keys_NoDup {V} (d : Py.dict V) k v :
  NoDup (Py.keys d) -> NoDup (Py.keys (Py.dict_set d k v)).
Proof.
  unfold Py.keys. induction d as [|[k0 v0] d IH]; intros H; cbn.
  - repeat constructor. intros [].
  - destruct (String.eqb_spec k0 k); [exact H|].
    cbn. apply NoDup_cons_iff in H as [Hnotin Hnd].
    constructor; [|now apply IH].
    intros Hin. apply (proj1 (keys_dict_set d k v k0)) in Hin.
    destruct Hin as [Hin|E]; [exact (Hnotin Hin) | congruence].
Qed.

Lemma fold_set_cell_NoDup (entries : list (nat * Soup.Tag)) :
  forall acc : Record_,
    NoDup (Py.keys acc) -> NoDup (Py.keys (fold_left set_cell entries acc)).
Proof.
  induction entries as [|[i c] entries IH]; intros acc H; [exact H|].
  cbn [fold_left set_cell]. apply IH. now apply dict_set_keys_NoDup.
Qed.

Lemma row_dict_keys_NoDup cells : NoDup (Py.keys (row_dict_of cells)).
Proof.
  rewrite row_dict_of_fold. apply fold_set_cell_NoDup. constructor.
Qed.

(** X5.  The columns of the frame come in the order in which the names are
    first met.  When every later row brings only names the first row has,
    the columns are the names of the first row, in the order of its
    cells. *)
Theorem columns_follow_first_row (first : Soup.Tr) (others : list Soup.Tr) :
  (forall cells name, In cells others ->
     In name (Py.keys (row_dict_of cells)) ->
     In name (Py.keys (row_dict_of first))) ->
  frame_columns (map row_dict_of (first :: others))
  = Py.keys (row_dict_of first).
Proof.
  intros H. unfold frame_columns. cbn [map fold_left].
  rewrite (fold_add_key_new _ []) by apply row_dict_keys_NoDup. cbn [app].
  induction others as [|cells others IH]; [reflexivity|].
  cbn [map fold_left]. rewrite fold_add_key_known.
  - apply IH. intros cells' name Hin. apply H. now right.
  - intros name. apply H. now left.
Qed.

Lemma columns_follow_first_row_witness :
  frame_columns
    (map row_dict_of [ [td "BASE_04-11-26"; td "60"; td "449,00"];
                       [td "PEAK_04-11-26"; td "15"] ])
  = ["Instrument"; "Typ instrumentu"; "Fixing I - Kurs [PLN/MWh]"].
Proof.
  refine (columns_follow_first_row
            [td "BASE_04-11-26"; td "60"; td "449,00"]
            [ [td "PEAK_04-11-26"; td "15"] ] _).
  intros cells name [<-|[]] Hin. cbn in *. tauto.
Defined.

(** ** The filter *)

Lemma has_column_position df name :
  has_column df name = true ->
  exists j, position name (columns df) = Some j.
Proof.
  unfold has_column. intros H. apply existsb_eqb_In in H.
  destruct (position_nth (B := string) _ _ H) as (j & Hpos & _). eauto.
Qed.

Lemma filter_instrument_select df j :
  position "Typ instrumentu" (columns df) = Some j ->
  filter_instrument df
  = Ret (if has_column df "Typ instrumentu"
         then {| columns := columns df;
                 body := filter (row_has j "60") (body df) |}
         else df).
Proof.
  intros Hpos. unfold filter_instrument.
  destruct (has_column df "Typ instrumentu"); [|reflexivity].
  cbn [Py.truthy String.eqb negb]. unfold getitem. rewrite Hpos.
  cbn [obind]. unfold select, series_eq.
  rewrite map_map, (select_by_own_mask (row_has j "60")). reflexivity.
Qed.

Lemma filter_twice {A} (g : A -> bool) (l : list A) :
  filter g (filter g l) = filter g l.
Proof. apply forallb_filter_id, forallb_filter. Qed.

Lemma filter_instrument_spec (df : DataFrame) :
  exists df',
    filter_instrument df = Ret df'
    /\ columns df' = columns df
    /\ (forall row, In row (body df') -> In row (body df))
    /\ (has_column df "Typ instrumentu" = false -> df' = df)
    /\ (forall j, has_column df "Typ instrumentu" = true ->
                  position "Typ instrumentu" (columns df) = Some j ->
                  body df' = filter (row_has j "60") (body df)).
Proof.
  destruct (has_column df "Typ instrumentu") eqn:Hc.
  - destruct (has_column_position _ _ Hc) as (j & Hpos).
    exists {| columns := columns df; body := filter (row_has j "60") (body df) |}.
    rewrite (filter_instrument_select df j Hpos), Hc.
    split; [reflexivity|]. split; [reflexivity|]. split.
    { cbn [body]. intros row Hin. now apply filter_In in Hin. }
    split; [discriminate|].
    intros j' _ Hpos'. cbn [body]. congruence.
  - exists df. unfold filter_instrument. rewrite Hc.
    repeat split; auto. discriminate.
Qed.

(** X6.  The filter on the instrument type works on every frame without
    raising: the lookup of the column is guarded by the test for it.  It
    keeps the columns, returns rows of the frame only, leaves a frame
    without the column as it is and, with the column, returns exactly the
    rows whose cell in that column is ["60"].  Filtering the result again
    changes nothing. *)
Theorem filter_instrument_result (df : DataFrame) :
  exists df',
    filter_instrument df = Ret df'
    /\ columns df' = columns df
    /\ (forall row, In row (body df') -> In row (body df))
    /\ (has_column df "Typ instrumentu" = false -> df' = df)
    /\ (forall j, has_column df "Typ instrumentu" = true ->
                  position "Typ instrumentu" (columns df) = Some j ->
                  body df' = filter (row_has j "60") (body df))
    /\ filter_instrument df' = Ret df'.
Proof.
  destruct (filter_instrument_spec df) as (df' & Hrun & Hcols & Hsub & Habs & Hsel).
  exists df'. repeat (split; [assumption|]).
  destruct (has_column df "Typ instrumentu") eqn:Hc.
  - destruct (has_column_position _ _ Hc) as (j & Hpos).
    specialize (Hsel j eq_refl Hpos).
    assert (Hc' : has_column df' "Typ instrumentu" = true)
      by (unfold has_column in *; now rewrite Hcols).
    rewrite (filter_instrument_select df' j) by now rewrite Hcols.
    rewrite Hc', Hsel, filter_twice, <- Hsel.
    now destruct df'.
  - now rewrite (Habs eq_refl), Hrun, (Habs eq_refl).
Qed.

Lemma filter_instrument_result_witness :
  exists df',
    filter_instrument
      {| columns := ["Typ instrumentu"; "Kurs"];
         body := [ (0%nat, [Some "60"; Some "449,00"]);
                   (1%nat, [None; Some "512,30"]);
                   (2%nat, [Some "60"]) ] |} = Ret df'
    /\ body df' = [ (0%nat, [Some "60"; Some "449,00"]); (2%nat, [Some "60"]) ].
Proof.
  destruct (filter_instrument_result
              {| columns := ["Typ instrumentu"; "Kurs"];
                 body := [ (0%nat, [Some "60"; Some "449,00"]);
                           (1%nat, [None; Some "512,30"]);
                           (2%nat, [Some "60"]) ] |})
    as (df' & Hrun & _ & _ & _ & Hbody & _).
  exists df'. split; [exact Hrun|].
  rewrite (Hbody 0%nat); reflexivity.
Defined.

(** ** What an attempt makes of a page *)

Lemma data_rows_have_fields doc r :
  In r (data_rows doc) -> exists name, In name (Py.keys r).
Proof.
  unfold data_rows. destruct (Soup.find_rdn doc) as [table|]; [|intros []].
  unfold rows_of. destruct (Soup.find_tbody table) as [trs|]; [|intros []].
  rewrite rows_of_fold. cbn [app]. intros Hin.
  apply in_map_iff in Hin as (cells & <- & Hcells).
  apply filter_In in Hcells as [_ Hc].
  destruct cells as [|c cells]; [discriminate|].
  exists (col_name 0 c). now apply (row_dict_has_field (c :: cells) 0 c).
Qed.

(** X7.  What an attempt makes of a parsed page, case by case, never raising:
    without the table it asks for another attempt when one remains and
    returns [None] otherwise; with a table that yields no row it returns
    [None]; in every other case it returns a frame, which has all the
    columns of the page (at least one) even when the filter leaves it no
    row. *)
Theorem process_document_cases (doc : Soup.Document) (attempt max_retries : Z) :
  (Soup.find_rdn doc = None ->
   process_document doc attempt max_retries
   = Ret (if (attempt <? max_retries - 1)%Z then Continue else Return None))
  /\ (Soup.find_rdn doc <> None -> data_rows doc = [] ->
      process_document doc attempt max_retries = Ret (Return None))
  /\ (data_rows doc <> [] ->
      exists df,
        process_document doc attempt max_retries = Ret (Return (Some df))
        /\ columns df = frame_columns (data_rows doc)
        /\ columns df <> []
        /\ (len df <= List.length (data_rows doc))%nat).
Proof.
  split; [|split].
  - intros H. unfold process_document. rewrite H.
    now destruct (attempt <? max_retries - 1)%Z.
  - intros Ht Hr. unfold process_document, data_rows in *.
    destruct (Soup.find_rdn doc) as [table|]; [|congruence]. now rewrite Hr.
  - intros Hne. rewrite (process_document_rows doc attempt max_retries Hne).
    assert (Hcols : frame_columns (data_rows doc) <> []).
    { destruct (data_rows doc) as [|r rows] eqn:E; [congruence|].
      destruct (data_rows_have_fields doc r) as [name Hname];
        [rewrite E; now left|].
      intros Hnil.
      assert (Hin : In name (frame_columns (r :: rows))).
      { apply frame_columns_In. exists r. split; [now left | exact Hname]. }
      rewrite Hnil in Hin. destruct Hin. }
    destruct (filter_instrument_spec (DataFrame_of (data_rows doc)))
      as (df & Hrun & Hc & Hsub & Habs & Hsel).
    exists df. rewrite Hrun. cbn [obind]. split; [reflexivity|].
    cbn [columns DataFrame_of] in Hc. rewrite Hc.
    split; [reflexivity|]. split; [exact Hcols|].
    rewrite <- (frame_len (data_rows doc)). unfold len.
    destruct (has_column (DataFrame_of (data_rows doc)) "Typ instrumentu") eqn:E.
    + destruct (has_column_position _ _ E) as (j & Hpos).
      rewrite (Hsel j eq_refl Hpos). apply filter_length_le.
    + now rewrite (Habs eq_refl).
Qed.

Lemma process_document_cases_witness :
  process_document sample_page_no_table 0 3 = Ret Continue
  /\ process_document sample_page_no_table 2 3 = Ret (Return None)
  /\ process_document sample_page_no_body 0 3 = Ret (Return None).
Proof.
  split; [|split].
  - apply (proj1 (process_document_cases sample_page_no_table 0 3)).
    reflexivity.
  - apply (proj1 (process_document_cases sample_page_no_table 2 3)).
    reflexivity.
  - apply (proj1 (proj2 (process_document_cases sample_page_no_body 0 3)));
      [discriminate | reflexivity].
Defined.

(** ** More on the retry loop *)

(** X8.  When every attempt fails in the transport, a call with
    [max_retries >= 1] gives up after exactly [max_retries] requests, having
    slept 2, 4, ..., 2^(max_retries - 1) seconds between them, and returns
    [None]. *)
Theorem exhausted_retries_return_None (date_str : option string) (d : string)
    (max_retries : Z) (w : World) :
  date_or_today (date_env w) date_str = Ret d ->
  (1 <= max_retries)%Z ->
  (forall i, (i < Z.to_nat max_retries)%nat ->
             transport_failure (reply_at w i) = true) ->
  scrape_tge_data date_str max_retries w
  = (Ret None,
     mkWorld (date_env w) (network w) (requests w + Z.to_nat max_retries)
       (trace w
        ++ EvSession :: retry_events (url_of d) (Z.to_nat max_retries - 1))).
Proof.
  intros Hd Hmr Hfail.
  set (K := (Z.to_nat max_retries - 1)%nat).
  assert (HK : (Z.of_nat K < max_retries)%Z) by lia.
  rewrite (scrape_tge_data_decided _ d _ K None _ Hd HK).
  - unfold after_attempts. rewrite events_of_attempts.
    do 2 f_equal. lia.
  - intros j Hj. apply failed_attempt_continues; [lia|].
    now rewrite (Hfail j ltac:(lia)).
  - rewrite (attempt_flow_transport_failure _ _ _ (Hfail K ltac:(lia))).
    unfold on_RequestException.
    destruct (Z.eqb_spec (Z.of_nat K) (max_retries - 1)); [reflexivity | lia].
Qed.

Lemma exhausted_retries_return_None_witness :
  scrape_tge_data (Some "04-11-2026") 4 (boot sample_env net_down)
  = (Ret None,
     mkWorld sample_env net_down 4
       [ EvSession;
         EvGet (url_of "04-11-2026") 30;
         EvSleep 2; EvGet (url_of "04-11-2026") 30;
         EvSleep 4; EvGet (url_of "04-11-2026") 30;
         EvSleep 8; EvGet (url_of "04-11-2026") 30 ]).
Proof.
  refine (exhausted_retries_return_None (Some "04-11-2026") "04-11-2026" 4
            (boot sample_env net_down) _ _ _).
  - reflexivity.
  - lia.
  - intros i Hi. reflexivity.
Defined.

Lemma sum_of_backoffs (k : nat) :
  fold_right Z.add 0%Z (map (fun i => (2 ^ Z.of_nat i)%Z) (seq 1 k))
  = (2 ^ Z.of_nat (S k) - 2)%Z.
Proof.
  induction k as [|k IH]; [reflexivity|].
  rewrite seq_S, map_app, fold_right_app. cbn [map fold_right Nat.add].
  assert (E : forall (l : list Z) (a : Z),
            fold_right Z.add a l = (fold_right Z.add 0 l + a)%Z).
  { clear. induction l as [|x l IHl]; intros a; cbn; [lia|].
    rewrite IHl. lia. }
  rewrite E, IH.
  replace (Z.of_nat (S (S k))) with (Z.of_nat (S k) + 1)%Z by lia.
  rewrite Z.pow_add_r by lia. change (2 ^ 1)%Z with 2%Z. lia.
Qed.

Lemma total_sleep_of_attempts url (n : nat) :
  total_sleep (flat_map (attempt_events url) (Py.range (Z.of_nat n)))
  = (2 ^ Z.of_nat (Nat.max n 1) - 2)%Z.
Proof.
  destruct n as [|k]; [reflexivity|].
  rewrite events_of_attempts. unfold total_sleep.
  rewrite retry_events_sleeps, sum_of_backoffs.
  now replace (Nat.max (S k) 1) with (S k) by lia.
Qed.

(** X9.  The time a call spends sleeping: after [n] attempts it has slept
    2^n - 2 seconds in all, so a call never sleeps more than
    2^max_retries - 2 seconds (6 seconds with the default of 3). *)
Theorem total_backoff_bound (date_str : option string) (d : string)
    (max_retries : Z) (w : World) :
  date_or_today (date_env w) date_str = Ret d ->
  exists n result events,
    (n <= Z.to_nat max_retries)%nat
    /\ scrape_tge_data date_str max_retries w
       = (Ret result, after_attempts (url_of d) n w)
    /\ trace (after_attempts (url_of d) n w) = trace w ++ EvSession :: events
    /\ total_sleep events = (2 ^ Z.of_nat (Nat.max n 1) - 2)%Z
    /\ (total_sleep events <= 2 ^ Z.max max_retries 1 - 2)%Z.
Proof.
  intros Hd.
  destruct (scrape_tge_data_run _ d max_retries w Hd) as (n & result & Hn & Hrun).
  exists n, result, (flat_map (attempt_events (url_of d)) (Py.range (Z.of_nat n))).
  rewrite total_sleep_of_attempts. repeat split; auto.
  apply Z.sub_le_mono_r. apply Z.pow_le_mono_r; lia.
Qed.

Lemma total_backoff_bound_witness :
  exists n result events,
    scrape_tge_data None 3 (boot sample_env net_third_time)
    = (Ret result,
       after_attempts (url_of "04-11-2026") n (boot sample_env net_third_time))
    /\ trace (after_attempts (url_of "04-11-2026") n
                (boot sample_env net_third_time))
       = EvSession :: events
    /\ (total_sleep events <= 6)%Z.
Proof.
  destruct (total_backoff_bound None "04-11-2026" 3
              (boot sample_env net_third_time) eq_refl)
    as (n & result & events & _ & Hrun & Htrace & _ & Hle).
  exists n, result, events. split; [exact Hrun|]. split; [exact Htrace|].
  exact Hle.
Defined.

(** X10.  An exception of the parser is not retried: when, after attempts
    that failed in the transport or found no table, a response arrives whose
    body the parser rejects, the call returns [None] at once, whatever
    attempts remain. *)
Theorem parser_exception_returns_None (date_str : option string) (d : string)
    (max_retries : Z) (K : nat) (w : World) (response : Response) :
  date_or_today (date_env w) date_str = Ret d ->
  (Z.of_nat K < max_retries)%Z ->
  (forall i, (i < K)%nat ->
     transport_failure (reply_at w i) || table_missing (reply_at w i) = true) ->
  reply_at w K = Answers response ->
  transport_failure (reply_at w K) = false ->
  content response = Unparseable ->
  scrape_tge_data date_str max_retries w
  = (Ret None, after_attempts (url_of d) (K + 1) w).
Proof.
  intros Hd HK Hprior Hreply Hok Hbody.
  rewrite (scrape_tge_data_decided _ d _ K None _ Hd HK).
  - now rewrite Nat.add_1_r.
  - intros j Hj. apply failed_attempt_continues; [lia | auto].
  - rewrite Hreply in *. unfold attempt_flow. now rewrite Hok, Hbody.
Qed.

Lemma parser_exception_returns_None_witness :
  scrape_tge_data (Some "04-11-2026") 3
    (boot sample_env (fun _ => Answers (mkResponse 200 Unparseable)))
  = (Ret None,
     after_attempts (url_of "04-11-2026") 1
       (boot sample_env (fun _ => Answers (mkResponse 200 Unparseable)))).
Proof.
  refine (parser_exception_returns_None (Some "04-11-2026") "04-11-2026" 3 0
            (boot sample_env (fun _ => Answers (mkResponse 200 Unparseable)))
            (mkResponse 200 Unparseable) _ _ _ _ _ _).
  - reflexivity.
  - lia.
  - intros i Hi. lia.
  - reflexivity.
  - reflexivity.
  - reflexivity.
Defined.

Lemma attempt_events_in url (n : nat) e :
  In e (flat_map (attempt_events url) (Py.range (Z.of_nat n))) ->
  e = EvGet url 30
  \/ exists a, (1 <= a < Z.of_nat n)%Z /\ e = EvSleep (2 ^ a).
Proof.
  rewrite in_flat_map. intros (a & Ha & He).
  rewrite range_of_nat in Ha. apply in_map_iff in Ha as (i & <- & Hi).
  apply in_seq in Hi. unfold attempt_events in He.
  apply in_app_or in He as [He|[He|[]]]; [|now left].
  destruct (Z.gtb_spec (Z.of_nat i) 0); [|destruct He].
  destruct He as [<-|[]]. right. exists (Z.of_nat i). split; [lia | reflexivity].
Qed.

(** X11.  All the requests of a call go to the one URL made from the date,
    each with a timeout of 30 seconds, and every sleep is the backoff 2^a of
    an attempt number a with 1 <= a < max_retries: a call never sleeps less
    than 2 seconds at a time and never before its first request. *)
Theorem requests_and_sleeps_of_a_call (date_str : option string) (d : string)
    (max_retries : Z) (w : World) :
  date_or_today (date_env w) date_str = Ret d ->
  exists events,
    trace (snd (scrape_tge_data date_str max_retries w))
    = trace w ++ EvSession :: events
    /\ (forall url timeout, In (EvGet url timeout) events ->
                            url = url_of d /\ timeout = 30%Z)
    /\ (forall s, In (EvSleep s) events ->
                  exists a, (1 <= a < max_retries)%Z /\ s = (2 ^ a)%Z)
    /\ (forall first rest, events = first :: rest ->
                           first = EvGet (url_of d) 30).
Proof.
  intros Hd.
  destruct (scrape_tge_data_run _ d max_retries w Hd) as (n & result & Hn & Hrun).
  exists (flat_map (attempt_events (url_of d)) (Py.range (Z.of_nat n))).
  rewrite Hrun. split; [reflexivity|]. split; [|split].
  - intros url timeout H. apply attempt_events_in in H as [H|(a & _ & H)];
      [injection H as -> ->; auto | discriminate H].
  - intros s H. apply attempt_events_in in H as [H|(a & Ha & H)];
      [discriminate H|].
    injection H as ->. exists a. split; [lia | reflexivity].
  - intros first rest. destruct n as [|k]; [discriminate|].
    rewrite events_of_attempts. unfold retry_events. now intros [= <- _].
Qed.

Lemma requests_and_sleeps_of_a_call_witness :
  exists events,
    trace (snd (scrape_tge_data None 3 (boot sample_env net_third_time)))
    = EvSession :: events
    /\ (forall url timeout, In (EvGet url timeout) events ->
                            url = url_of "04-11-2026" /\ timeout = 30%Z).
Proof.
  destruct (requests_and_sleeps_of_a_call None "04-11-2026" 3
              (boot sample_env net_third_time) eq_refl)
    as (events & Htrace & Hget & _).
  exists events. split; [exact Htrace | exact Hget].
Defined.

Lemma for_attempts_agree url max_retries (attempts : list Z) :
  forall (w : World) (net : nat -> Reply),
    (forall i, (i < List.length attempts)%nat ->
               net (requests w + i)%nat = network w (requests w + i)%nat) ->
    for_attempts url max_retries attempts (with_network net w)
    = (fst (for_attempts url max_retries attempts w),
       with_network net (snd (for_attempts url max_retries attempts w))).
Proof.
  induction attempts as [|a rest IH]; intros w net H; [reflexivity|].
  rewrite !for_attempts_cons.
  pose proof (H 0%nat ltac:(cbn; lia)) as H0. rewrite Nat.add_0_r in H0.
  cbn [with_network network requests]. rewrite H0.
  destruct (attempt_flow (network w (requests w)) max_retries a);
    [|reflexivity].
  change (after_attempt url a (with_network net w))
    with (with_network net (after_attempt url a w)).
  apply IH. intros i Hi. cbn [after_attempt requests network].
  replace (S (requests w) + i)%nat with (requests w + S i)%nat by lia.
  apply H. cbn. lia.
Qed.

(** X12.  A call looks at no more replies than it may make requests: two
    networks that give the same first [max_retries] replies lead to the same
    result, the same requests and the same sleeps. *)
Theorem only_the_first_replies_matter (date_str : option string)
    (max_retries : Z) (w : World) (net : nat -> Reply) :
  (forall i, (i < Z.to_nat max_retries)%nat ->
             net (requests w + i)%nat = reply_at w i) ->
  scrape_tge_data date_str max_retries (with_network net w)
  = (fst (scrape_tge_data date_str max_retries w),
     with_network net (snd (scrape_tge_data date_str max_retries w))).
Proof.
  intros H. unfold scrape_tge_data, bind, lift.
  cbn [with_network date_env].
  destruct (date_or_today (date_env w) date_str) as [d|e]; [|reflexivity].
  unfold Session, emit. cbn [with_network date_env network requests trace].
  match goal with
  | |- for_attempts ?u ?m ?l ?w1 = (fst (for_attempts _ _ _ ?w0), _) =>
      change w1 with (with_network net w0);
      apply (for_attempts_agree u m l w0 net)
  end.
  intros i Hi. cbn [requests network]. apply H.
  unfold Py.range in Hi. now rewrite length_map, length_seq in Hi.
Qed.

Lemma only_the_first_replies_matter_witness :
  fst (scrape_tge_data (Some "04-11-2026") 1
         (with_network net_table_late (boot sample_env (fun _ => ok sample_page_no_table))))
  = fst (scrape_tge_data (Some "04-11-2026") 1
           (boot sample_env (fun _ => ok sample_page_no_table))).
Proof.
  rewrite (only_the_first_replies_matter (Some "04-11-2026") 1
             (boot sample_env (fun _ => ok sample_page_no_table))
             net_table_late).
  - reflexivity.
  - intros [|i] Hi; [reflexivity | cbn in Hi; lia].
Defined.

Lemma process_document_with_table doc table attempt max_retries max_retries' :
  Soup.find_rdn doc = Some table ->
  process_document doc attempt max_retries
  = process_document doc attempt max_retries'.
Proof. intros H. unfold process_document. now rewrite H. Qed.

Lemma attempt_flow_success_any_ceiling r max_retries max_retries' attempt df :
  attempt_flow r max_retries attempt = Return (Some df) ->
  attempt_flow r max_retries' attempt = Return (Some df).
Proof.
  unfold attempt_flow, on_RequestException.
  destruct r as [|response].
  { destruct (attempt =? max_retries - 1)%Z; discriminate. }
  destruct (transport_failure (Answers response)).
  { destruct (attempt =? max_retries - 1)%Z; discriminate. }
  destruct (content response) as [|soup]; [discriminate|].
  destruct (Soup.find_rdn soup) as [table|] eqn:Ht.
  - rewrite (process_document_with_table soup table attempt
               max_retries max_retries' Ht).
    now destruct (process_document_returns soup attempt max_retries')
      as [flow ->].
  - unfold process_document. rewrite Ht.
    destruct (attempt <? max_retries - 1)%Z; discriminate.
Qed.

Lemma attempt_flow_continue_higher_ceiling r max_retries max_retries' attempt :
  (attempt < max_retries - 1)%Z -> (max_retries <= max_retries')%Z ->
  attempt_flow r max_retries attempt = Continue ->
  attempt_flow r max_retries' attempt = Continue.
Proof.
  intros Ha Hle. unfold attempt_flow, on_RequestException.
  assert (E1 : (attempt =? max_retries' - 1)%Z = false)
    by (apply Z.eqb_neq; lia).
  assert (E2 : (attempt <? max_retries' - 1)%Z = true)
    by (apply Z.ltb_lt; lia).
  rewrite E1.
  destruct r as [|response]; [reflexivity|].
  destruct (transport_failure (Answers response)); [reflexivity|].
  destruct (content response) as [|soup]; [discriminate|].
  destruct (Soup.find_rdn soup) as [table|] eqn:Ht.
  - rewrite (process_document_with_table soup table attempt
               max_retries max_retries' Ht).
    now destruct (process_document_returns soup attempt max_retries')
      as [flow ->].
  - unfold process_document. rewrite Ht, E2.
    destruct (attempt <? max_retries - 1)%Z; [reflexivity | discriminate].
Qed.

Lemma for_attempts_success_inv url max_retries (n : nat) :
  forall (i : nat) (w w' : World) (df : DataFrame),
    for_attempts url max_retries (map Z.of_nat (seq i n)) w
    = (Ret (Some df), w') ->
    exists k,
      (k < n)%nat
      /\ (forall j, (j < k)%nat ->
            attempt_flow (reply_at w j) max_retries (Z.of_nat (i + j))
            = Continue)
      /\ attempt_flow (reply_at w k) max_retries (Z.of_nat (i + k))
         = Return (Some df).
Proof.
  induction n as [|n IH]; intros i w w' df H; [discriminate H|].
  cbn [seq map] in H. rewrite for_attempts_cons in H.
  destruct (attempt_flow (network w (requests w)) max_retries (Z.of_nat i))
    as [|result] eqn:Hflow.
  - apply IH in H as (k & Hk & Hprior & Hlast). exists (S k).
    split; [lia|]. split.
    + intros [|j] Hj.
      * unfold reply_at. now rewrite !Nat.add_0_r.
      * specialize (Hprior j ltac:(lia)).
        unfold reply_at, after_attempt in *. cbn [network requests] in Hprior.
        replace (requests w + S j)%nat with (S (requests w) + j)%nat by lia.
        replace (i + S j)%nat with (S i + j)%nat by lia. exact Hprior.
    + unfold reply_at, after_attempt in *. cbn [network requests] in Hlast.
      replace (requests w + S k)%nat with (S (requests w) + k)%nat by lia.
      replace (i + S k)%nat with (S i + k)%nat by lia. exact Hlast.
  - injection H as -> _. exists 0%nat. split; [lia|]. split; [intros j Hj; lia|].
    unfold reply_at. now rewrite !Nat.add_0_r.
Qed.

(** X13.  Allowing more attempts never loses a result: when a call returns a
    frame, the same call with a larger [max_retries] returns the same frame
    after the same requests and sleeps. *)
Theorem more_retries_keep_the_result (date_str : option string) (d : string)
    (max_retries max_retries' : Z) (w w' : World) (df : DataFrame) :
  date_or_today (date_env w) date_str = Ret d ->
  (max_retries <= max_retries')%Z ->
  scrape_tge_data date_str max_retries w = (Ret (Some df), w') ->
  scrape_tge_data date_str max_retries' w = (Ret (Some df), w').
Proof.
  intros Hd Hle Hrun. pose proof Hrun as Hinv.
  rewrite (scrape_tge_data_start _ d _ _ Hd) in Hinv. unfold Py.range in Hinv.
  apply for_attempts_success_inv in Hinv as (k & Hk & Hprior & Hlast).
  change (reply_at (mkWorld (date_env w) (network w) (requests w)
                      (trace w ++ [EvSession])))
    with (reply_at w) in *.
  cbn [Nat.add] in *.
  assert (HK : (Z.of_nat k < max_retries)%Z) by lia.
  rewrite (scrape_tge_data_decided _ d _ k (Some df) _ Hd HK Hprior Hlast)
    in Hrun.
  injection Hrun as <-.
  apply (scrape_tge_data_decided _ d _ k (Some df) _ Hd); [lia | |].
  - intros j Hj.
    apply (attempt_flow_continue_higher_ceiling _ max_retries); [lia | lia|].
    now apply Hprior.
  - now apply (attempt_flow_success_any_ceiling _ max_retries).
Qed.

Lemma more_retries_keep_the_result_witness :
  scrape_tge_data (Some "04-11-2026") 5 (boot sample_env net_third_time)
  = (Ret (Some sample_frame),
     mkWorld sample_env net_third_time 3
       [ EvSession;
         EvGet (url_of "04-11-2026") 30;
         EvSleep 2; EvGet (url_of "04-11-2026") 30;
         EvSleep 4; EvGet (url_of "04-11-2026") 30 ]).
Proof.
  refine (more_retries_keep_the_result (Some "04-11-2026") "04-11-2026" 3 5
            (boot sample_env net_third_time) _ sample_frame _ _ _).
  - reflexivity.
  - lia.
  - reflexivity.
Defined.

(** ** The script *)

Lemma save_to_file_run (df : DataFrame) (filename : string) (h : Host) :
  empty df = false ->
  save_to_file (Some df) filename h
  = (Ret tt,
     mkHost (world h) (expanduser_desktop h) (path_exists h) (path_join h)
       (to_csv_raises h) (local_now h)
       (actions h
        ++ [ActToCsv
              (path_join h
                 (if path_exists h (expanduser_desktop h)
                  then expanduser_desktop h else ".")
                 filename) df])).
Proof.
  intros He. unfold save_to_file, htry, to_csv, hbind, act, hret. rewrite He.
  cbn [to_csv_raises path_join path_exists expanduser_desktop].
  destruct (path_exists h (expanduser_desktop h)); cbn [negb];
    match goal with
    | |- context [to_csv_raises h ?p] => destruct (to_csv_raises h p)
    end; reflexivity.
Qed.

Lemma display_data_run (df : DataFrame) (h : Host) :
  empty df = false ->
  display_data (Some df) h
  = (Ret tt,
     mkHost (world h) (expanduser_desktop h) (path_exists h) (path_join h)
       (to_csv_raises h) (local_now h)
       (actions h
        ++ [ ActSetOption "display.max_columns"; ActSetOption "display.width";
             ActSetOption "display.max_colwidth"; ActShow df ])).
Proof.
  intros He. unfold display_data, hbind, act. rewrite He.
  cbn [world expanduser_desktop path_exists path_join to_csv_raises local_now
       actions].
  rewrite <- !app_assoc. reflexivity.
Qed.

(** X14.  [save_to_file] never raises, whatever the disk does: a failing
    write is caught.  Given [None] or a frame without rows or columns it
    writes nothing; otherwise it makes exactly one [to_csv] call, with the
    frame it was given, to the file of the given name in the desktop folder
    when that exists and in the current directory otherwise. *)
Theorem save_to_file_writes_once (df : option DataFrame) (filename : string)
    (h : Host) :
  fst (save_to_file df filename h) = Ret tt
  /\ world (snd (save_to_file df filename h)) = world h
  /\ actions (snd (save_to_file df filename h))
     = actions h
       ++ match df with
          | Some frame =>
              if empty frame then []
              else [ActToCsv
                      (path_join h
                         (if path_exists h (expanduser_desktop h)
                          then expanduser_desktop h else ".")
                         filename) frame]
          | None => []
          end.
Proof.
  destruct df as [frame|].
  - destruct (empty frame) eqn:He.
    + unfold save_to_file. rewrite He. cbn. now rewrite app_nil_r.
    + rewrite (save_to_file_run frame filename h He). cbn. auto.
  - cbn. now rewrite app_nil_r.
Qed.

Lemma main_run (h : Host) (result : option DataFrame) (w' : World) :
  date_env w' = date_env (world h) ->
  scrape_tge_data None 3 (world h) = (Ret result, w') ->
  main h
  = (Ret tt,
     mkHost w' (expanduser_desktop h) (path_exists h) (path_join h)
       (to_csv_raises h) (local_now h)
       (actions h
        ++ match result with
           | Some df => if empty df then [] else shown_and_saved h df
           | None => []
           end)).
Proof.
  intros Henv Hrun. unfold main, hbind at 1, in_world. rewrite Hrun.
  destruct result as [df|]; [|cbn; now rewrite app_nil_r].
  destruct (empty df) eqn:He; cbn [negb]; [cbn; now rewrite app_nil_r|].
  unfold hbind. rewrite (display_data_run df _ He).
  rewrite (save_to_file_run df _ _ He).
  cbn [world expanduser_desktop path_exists path_join to_csv_raises local_now
       actions].
  unfold shown_and_saved. rewrite Henv, <- app_assoc. reflexivity.
Qed.

(** X15.  The main block, when the date is found: it calls the scraper with
    the date of today and three attempts, never raises, and shows and saves
    exactly when the scraper returned a frame that is not empty: then it
    sets the three display options, prints that frame and writes that same
    frame to [tge_data_<stamp>.csv], the stamp taken from the local clock.
    When the scraper returned [None] or an empty frame nothing is shown and
    nothing is written. *)
Theorem main_shows_and_saves (h : Host) (d : string) :
  date_or_today (date_env (world h)) None = Ret d ->
  exists result n,
    (n <= 3)%nat
    /\ scrape_tge_data None 3 (world h)
       = (Ret result, after_attempts (url_of d) n (world h))
    /\ fst (main h) = Ret tt
    /\ world (snd (main h)) = after_attempts (url_of d) n (world h)
    /\ actions (snd (main h))
       = actions h
         ++ match result with
            | Some df => if empty df then [] else shown_and_saved h df
            | None => []
            end.
Proof.
  intros Hd.
  destruct (scrape_tge_data_run None d 3 (world h) Hd)
    as (n & result & Hn & Hrun).
  exists result, n.
  rewrite (main_run h result (after_attempts (url_of d) n (world h))
             eq_refl Hrun).
  cbn. auto.
Qed.

Lemma main_shows_and_saves_witness :
  exists result n,
    scrape_tge_data None 3 (world (sample_host net_third_time))
    = (Ret result,
       after_attempts (url_of "04-11-2026") n
         (world (sample_host net_third_time)))
    /\ fst (main (sample_host net_third_time)) = Ret tt.
Proof.
  destruct (main_shows_and_saves (sample_host net_third_time) "04-11-2026"
              eq_refl)
    as (result & n & _ & Hrun & Hret & _).
  exists result, n. split; [exact Hrun | exact Hret].
Defined.

(** The script at work: the third attempt brings the page, the two rows of
    type 60 are shown and written to the current directory. *)
Example main_on_sample_page :
  actions (snd (main (sample_host net_third_time)))
  = [ ActSetOption "display.max_columns"; ActSetOption "display.width";
      ActSetOption "display.max_colwidth"; ActShow sample_frame;
      ActToCsv "./tge_data_20261104_103005.csv" sample_frame ].
Proof. vm_compute. reflexivity. Qed.

Lemma kept_rows_none keep rows :
  (forall r, In r rows -> keep r = false) -> kept_rows keep rows = [].
Proof.
  unfold kept_rows, Py.enumerate.
  generalize (frame_columns rows) as cols, 0%nat as i.
  induction rows as [|r rows IH]; intros cols i H; [reflexivity|].
  cbn [Py.enumerate_from filter]. rewrite (H r) by now left.
  apply IH. intros r' Hr'. apply H. now right.
Qed.

(** X16.  A page in the expected shape on which no row is of type 60 is
    fetched and filtered without failure, yet the script shows nothing and
    writes no file: the frame without rows is empty, and the main block
    treats it like a failed download. *)
Theorem main_with_no_row_of_type_60 (h : Host) (d : string)
    (doc : Soup.Document) :
  date_or_today (date_env (world h)) None = Ret d ->
  page_of (reply_at (world h) 0) = Some doc ->
  well_formed doc = true ->
  (forall r, In r (data_rows doc) ->
             field_is "Typ instrumentu" "60" r = false) ->
  exists df,
    scrape_tge_data None 3 (world h)
    = (Ret (Some df), after_attempts (url_of d) 1 (world h))
    /\ columns df = frame_columns (data_rows doc)
    /\ body df = []
    /\ fst (main h) = Ret tt
    /\ actions (snd (main h)) = actions h.
Proof.
  intros Hd Hpage Hwf Hnone.
  destruct (well_formed_rows doc Hwf) as (Hcol & Hne & _).
  set (df := {| columns := frame_columns (data_rows doc);
                body := @nil (nat * list cell) |}).
  assert (Hdoc : process_document doc 0 3 = Ret (Return (Some df))).
  { rewrite (process_document_rows doc 0 3 Hne).
    rewrite (filter_instrument_present _ Hcol).
    now rewrite (kept_rows_none _ _ Hnone). }
  assert (Hrun : scrape_tge_data None 3 (world h)
                 = (Ret (Some df), after_attempts (url_of d) 1 (world h))).
  { apply (scrape_tge_data_decided None d 3 0 (Some df) _ Hd); [lia | |].
    - intros j Hj. lia.
    - pose proof (attempt_flow_page _ _ 3%Z 0%Z Hpage) as E.
      change (Z.of_nat 0) with 0%Z. rewrite Hdoc in E. congruence. }
  exists df. split; [exact Hrun|]. split; [reflexivity|].
  split; [reflexivity|].
  rewrite (main_run h _ (after_attempts (url_of d) 1 (world h)) eq_refl Hrun).
  cbn [fst snd actions].
  assert (He : empty df = true)
    by (unfold empty, df; cbn; now destruct (frame_columns (data_rows doc))).
  rewrite He, app_nil_r. auto.
Qed.

Lemma main_with_no_row_of_type_60_witness :
  fst (main (sample_host (fun _ => ok sample_page_other_types))) = Ret tt
  /\ actions (snd (main (sample_host (fun _ => ok sample_page_other_types))))
     = [].
Proof.
  destruct (main_with_no_row_of_type_60
              (sample_host (fun _ => ok sample_page_other_types))
              "04-11-2026" sample_page_other_types eq_refl eq_refl eq_refl)
    as (df & _ & _ & _ & Hret & Hact).
  - intros r [<-|[<-|[]]]; reflexivity.
  - split; [exact Hret | exact Hact].
Defined.

(** X17.  The main block does not guard the date: when [get_polish_date]
    raises, the exception leaves the script before a session is made or a
    request sent, and nothing is shown or written. *)
Theorem main_raises_with_the_date (h : Host) (e : Exn) :
  get_polish_date (date_env (world h)) = Raise e ->
  main h = (Raise e, h).
Proof.
  intros He. unfold main, hbind, in_world, scrape_tge_data, bind, lift.
  cbn [date_or_today]. rewrite He. now destruct h.
Qed.

Lemma main_raises_with_the_date_witness :
  fst (main (mkHost
              (boot (mkDateEnv false (Raise ImportError) (Raise ImportError)
                       (Datetime.mkDatetime 9999 12 31 23 30 0 0))
                 net_down)
              "~\Desktop" (fun _ => false)
              (fun dir name => (dir ++ "/" ++ name)%string) (fun _ => false)
              (Datetime.mkDatetime 9999 12 31 23 30 0 0) []))
  = Raise OverflowError.
Proof.
  rewrite (main_raises_with_the_date _ OverflowError); reflexivity.
Defined.

(** ** More on the date *)

(** X18.  The last Sundays: in every year from 1 to 9999,
    [max(week[-1] for week in calendar.monthcalendar(year, m))] is, for March
    and for October, a day of the month that is a Sunday and has no Sunday of
    the month after it; so the [datetime] of the change of time is built
    without [ValueError]. *)
Theorem last_sunday_is_the_last_sunday (y m : Z) :
  (1 <= y <= 9999)%Z -> m = 3%Z \/ m = 10%Z ->
  exists d,
    Datetime.last_sunday y m = Ret d
    /\ (25 <= d <= 31)%Z
    /\ Datetime.weekday y m d = 6%Z
    /\ Datetime.make y m d 1 0 0 = Ret (Datetime.mkDatetime y m d 1 0 0 0).
Proof.
  intros Hy Hm.
  destruct (PolishDate.last_sundays y Hy) as (a & b & Ha & Hb & Hsa & Hsb).
  assert (Hgen : forall d, is_last_sunday y m d = true ->
            (25 <= d <= 31)%Z /\ Datetime.weekday y m d = 6%Z
            /\ Datetime.make y m d 1 0 0
               = Ret (Datetime.mkDatetime y m d 1 0 0 0)).
  { intros d Hd. unfold is_last_sunday in Hd.
    apply andb_prop in Hd as [Hd Hlast]. apply andb_prop in Hd as [Hv Hw].
    apply Z.eqb_eq in Hw. apply Z.ltb_lt in Hlast.
    pose proof (proj1 (DatetimeFacts.valid_date_iff y m d) Hv) as (_ & _ & Hday).
    assert (Hdim : Datetime.days_in_month y m = 31%Z)
      by (destruct Hm as [-> | ->]; reflexivity).
    rewrite Hdim in *. split; [lia|]. split; [exact Hw|].
    unfold Datetime.make. now rewrite Hv. }
  destruct Hm as [-> | ->].
  - exists a. split; [exact Ha|]. now apply Hgen.
  - exists b. split; [exact Hb|]. now apply Hgen.
Qed.

Lemma last_sunday_is_the_last_sunday_witness :
  exists d,
    Datetime.last_sunday 2026 10 = Ret d /\ Datetime.weekday 2026 10 d = 6%Z.
Proof.
  destruct (last_sunday_is_the_last_sunday 2026 10 ltac:(lia) (or_intror eq_refl))
    as (d & Hd & _ & Hw & _).
  exists d. split; [exact Hd | exact Hw].
Defined.

(** X19.  Computed from the UTC clock, the Polish date is the UTC date
    whenever the UTC time is before 22:00: the one or two hours added do not
    reach midnight. *)
Theorem polish_date_is_utc_date_before_22 (env : DateEnv) :
  uses_clock env = true ->
  Datetime.valid (utcnow env) = true ->
  (Datetime.hour (utcnow env) < 22)%Z ->
  get_polish_date env
  = Ret (Datetime.strftime_dmY (pads_year env) (utcnow env)).
Proof.
  intros Hclock Hv Hhour. unfold get_polish_date, uses_clock in *.
  destruct (zoneinfo_now env) as [t|e]; [discriminate|].
  destruct (pytz_now env) as [t|e']; [discriminate|].
  destruct e'; try discriminate Hclock.
  destruct (manual_polish_time_offset (utcnow env) Hv) as (offset & Hoff & ->).
  pose proof Hv as Hv'. unfold Datetime.valid in Hv'.
  apply andb_prop in Hv' as [Hdate Htime].
  apply DatetimeFacts.valid_date_iff in Hdate as (Hy & _).
  apply DatetimeFacts.valid_time_iff in Htime as (Hhr & _).
  unfold Datetime.add_hours.
  rewrite Z.div_small by lia. cbn [Z.to_nat Nat.iter nat_rect].
  destruct (Z.gtb_spec (Datetime.year (utcnow env)) Datetime.MAXYEAR) as [Hgt|_];
    [unfold Datetime.MAXYEAR in Hgt; lia|].
  reflexivity.
Qed.

Lemma polish_date_is_utc_date_before_22_witness :
  get_polish_date (mkDateEnv false (Raise ImportError) (Raise ImportError)
                     (Datetime.mkDatetime 2026 11 4 21 59 59 0))
  = Ret "04-11-2026".
Proof.
  refine (polish_date_is_utc_date_before_22
            (mkDateEnv false (Raise ImportError) (Raise ImportError)
               (Datetime.mkDatetime 2026 11 4 21 59 59 0)) _ _ _).
  - reflexivity.
  - reflexivity.
  - cbn. lia.
Defined.

(** ** More on single attempts and whole calls *)

(** X20.  A response with a status from 400 to 599 is never parsed: whatever
    its body holds, the attempt ends as a transport failure, another attempt
    being asked for unless this was the last.  A response with any other
    status has its body parsed. *)
Theorem error_status_is_not_parsed (url : string) (max_retries attempt : Z)
    (w : World) (response : Response) :
  network w (requests w) = Answers response ->
  ((400 <= status_code response < 600)%Z ->
   attempt_body url max_retries attempt w
   = (Ret (if (attempt =? max_retries - 1)%Z then Return None else Continue),
      after_attempt url attempt w))
  /\ (~ (400 <= status_code response < 600)%Z ->
      forall soup flow,
        content response = Parsed soup ->
        process_document soup attempt max_retries = Ret flow ->
        attempt_body url max_retries attempt w
        = (Ret flow, after_attempt url attempt w)).
Proof.
  intros Hreply. rewrite attempt_body_run, Hreply. unfold attempt_flow.
  cbn [transport_failure]. split.
  - intros Hs.
    assert (E : ((400 <=? status_code response)
                 && (status_code response <? 600))%Z = true).
    { apply andb_true_intro. split; [apply Z.leb_le | apply Z.ltb_lt]; lia. }
    now rewrite E.
  - intros Hs soup flow Hbody Hflow.
    assert (E : ((400 <=? status_code response)
                 && (status_code response <? 600))%Z = false).
    { apply not_true_is_false. intros E. apply andb_prop in E as [E1 E2].
      apply Z.leb_le in E1. apply Z.ltb_lt in E2. lia. }
    now rewrite E, Hbody, Hflow.
Qed.

Lemma error_status_is_not_parsed_witness :
  attempt_body (url_of "04-11-2026") 3 0
    (boot sample_env (fun _ => Answers (mkResponse 503 (Parsed sample_page))))
  = (Ret Continue,
     after_attempt (url_of "04-11-2026") 0
       (boot sample_env
          (fun _ => Answers (mkResponse 503 (Parsed sample_page))))).
Proof.
  refine (proj1 (error_status_is_not_parsed (url_of "04-11-2026") 3 0
                   (boot sample_env
                      (fun _ => Answers (mkResponse 503 (Parsed sample_page))))
                   (mkResponse 503 (Parsed sample_page)) _) _).
  - reflexivity.
  - cbn. lia.
Defined.

(** X21.  Called with a date, [scrape_tge_data] never raises, whatever the
    network and the pages are: every exception of the loop is caught.  It
    returns after at most [max_retries] requests. *)
Theorem scrape_with_a_date_never_raises (d : string) (max_retries : Z)
    (w : World) :
  exists result n,
    (Z.of_nat n <= Z.max max_retries 0)%Z
    /\ scrape_tge_data (Some d) max_retries w
       = (Ret result, after_attempts (url_of d) n w).
Proof.
  destruct (scrape_tge_data_run (Some d) d max_retries w eq_refl)
    as (n & result & Hn & Hrun).
  exists result, n. split; [lia | exact Hrun].
Qed.

Lemma attempt_flow_continue_inv r max_retries attempt :
  attempt_flow r max_retries attempt = Continue ->
  transport_failure r || table_missing r = true.
Proof.
  unfold attempt_flow, table_missing, page_of.
  destruct r as [|response]; [reflexivity|].
  destruct (transport_failure (Answers response)); [reflexivity|].
  cbn [orb]. destruct (content response) as [|soup]; [discriminate|].
  unfold process_document.
  destruct (Soup.find_rdn soup) as [table|]; [|reflexivity].
  destruct (rows_of table) as [|r rows]; [discriminate|].
  destruct (filter_instrument_spec (DataFrame_of (r :: rows)))
    as (df' & -> & _). discriminate.
Qed.

Lemma attempt_flow_success_inv r max_retries attempt df :
  attempt_flow r max_retries attempt = Return (Some df) ->
  exists doc,
    page_of r = Some doc
    /\ process_document doc attempt max_retries = Ret (Return (Some df)).
Proof.
  unfold attempt_flow, page_of, on_RequestException.
  destruct r as [|response].
  { destruct (attempt =? max_retries - 1)%Z; discriminate. }
  destruct (transport_failure (Answers response)).
  { destruct (attempt =? max_retries - 1)%Z; discriminate. }
  destruct (content response) as [|soup]; [discriminate|].
  destruct (process_document_returns soup attempt max_retries) as [flow Hflow].
  rewrite Hflow. intros ->. eauto.
Qed.

(** X22.  A frame the call returns is what the extractor made of the page
    of its last request: every earlier attempt failed in the transport or
    found no table, the last reply brought a page with the table, and the
    frame is the result of that page. *)
Theorem result_comes_from_last_reply (date_str : option string) (d : string)
    (max_retries : Z) (w w' : World) (df : DataFrame) :
  date_or_today (date_env w) date_str = Ret d ->
  scrape_tge_data date_str max_retries w = (Ret (Some df), w') ->
  exists (k : nat) (doc : Soup.Document),
    (Z.of_nat k < max_retries)%Z
    /\ w' = after_attempts (url_of d) (k + 1) w
    /\ (forall j, (j < k)%nat ->
          transport_failure (reply_at w j) || table_missing (reply_at w j)
          = true)
    /\ page_of (reply_at w k) = Some doc
    /\ data_rows doc <> []
    /\ process_document doc (Z.of_nat k) max_retries = Ret (Return (Some df)).
Proof.
  intros Hd Hrun. pose proof Hrun as Hinv.
  rewrite (scrape_tge_data_start _ d _ _ Hd) in Hinv. unfold Py.range in Hinv.
  apply for_attempts_success_inv in Hinv as (k & Hk & Hprior & Hlast).
  change (reply_at (mkWorld (date_env w) (network w) (requests w)
                      (trace w ++ [EvSession])))
    with (reply_at w) in *.
  cbn [Nat.add] in *.
  assert (HK : (Z.of_nat k < max_retries)%Z) by lia.
  rewrite (scrape_tge_data_decided _ d _ k (Some df) _ Hd HK Hprior Hlast)
    in Hrun.
  injection Hrun as <-.
  destruct (attempt_flow_success_inv _ _ _ _ Hlast) as (doc & Hpage & Hdoc).
  exists k, doc. split; [exact HK|]. split; [now rewrite Nat.add_1_r|].
  split; [|split; [exact Hpage | split; [|exact Hdoc]]].
  - intros j Hj. apply (attempt_flow_continue_inv _ max_retries (Z.of_nat j)).
    now apply Hprior.
  - intros Hnil. unfold process_document, data_rows in *.
    destruct (Soup.find_rdn doc) as [table|].
    + rewrite Hnil in Hdoc. discriminate.
    + destruct (Z.of_nat k <? max_retries - 1)%Z; discriminate.
Qed.

Lemma result_comes_from_last_reply_witness :
  exists (k : nat) (doc : Soup.Document),
    page_of (reply_at (boot sample_env net_third_time) k) = Some doc
    /\ process_document doc (Z.of_nat k) 3 = Ret (Return (Some sample_frame)).
Proof.
  destruct (result_comes_from_last_reply (Some "04-11-2026") "04-11-2026" 3
              (boot sample_env net_third_time) _ sample_frame
              eq_refl eq_refl)
    as (k & doc & _ & _ & _ & Hpage & _ & Hdoc).
  exists k, doc. split; [exact Hpage | exact Hdoc].
Defined.
